(** * Excel sheet reader chatbot: ingestion heuristics and SQL templates

    A shallow embedding of [clean_and_update_headers.py] (boundary
    detection, header naming, row extraction, blank normalisation) and of
    [chatbot.py] (keyword dispatch to SQL templates, store access), with
    the properties of the specification stated and proved over it.

    Conventions of the embedding:
    - a Python [str] is a [string]; a character is a code point below 256,
      on which [str.lower], [str.strip] and [str.split] are modelled
      exactly (Latin-1 range). Beyond that range [str.lower] can change the
      number of characters (U+0130 becomes two), so no statement below
      bounds a length after lower-casing;
    - a Python [set] of names is a [gset string];
    - a raised exception is the [Raise] case of [result];
    - a sheet cell is observed by the code only through [pd.isna] and
      [str], so a non-missing cell is represented by its text;
    - the [print] calls, and the counters kept only for them, are left
      out: they do not reach any returned value. *)

From Stdlib Require Import Ascii String DecimalNat DecimalString QArith.
From stdpp Require Import gmap strings list.

Local Open Scope nat_scope.

(** ** Python string operations *)

Module Py.

(** [str.isspace] on one character (code points below 256). *)
Definition is_space (c : ascii) : bool :=
  match c with
  | "009" | "010" | "011" | "012" | "013"
  | "028" | "029" | "030" | "031" | " "
  | "133" | "160" => true
  | _ => false
  end%char.

(** [str.lower] on one character of the range: A-Z and the Latin-1
    capitals U+00C0..U+00DE except the multiplication sign U+00D7. In this
    range the lower-case form is always one character. *)
Definition lower_char (c : ascii) : ascii :=
  let n := nat_of_ascii c in
  if ((65 <=? n) && (n <=? 90)) || ((192 <=? n) && (n <=? 222) && negb (n =? 215))
  then ascii_of_nat (n + 32)
  else c.

Fixpoint lower (s : string) : string :=
  match s with
  | EmptyString => EmptyString
  | String c s' => String (lower_char c) (lower s')
  end.

(** [s.startswith(p)] *)
Fixpoint starts_with (p s : string) : bool :=
  match p, s with
  | EmptyString, _ => true
  | String _ _, EmptyString => false
  | String a p', String b s' => if decide (a = b) then starts_with p' s' else false
  end.

(** [sub in s] *)
Fixpoint contains (sub s : string) : bool :=
  starts_with sub s ||
  match s with
  | EmptyString => false
  | String _ s' => contains sub s'
  end.

Fixpoint lstrip (s : string) : string :=
  match s with
  | EmptyString => EmptyString
  | String c s' => if is_space c then lstrip s' else s
  end.

Fixpoint rstrip (s : string) : string :=
  match s with
  | EmptyString => EmptyString
  | String c s' =>
      match rstrip s' with
      | EmptyString => if is_space c then EmptyString else String c EmptyString
      | r => String c r
      end
  end.

(** [s.strip()] *)
Definition strip (s : string) : string := rstrip (lstrip s).

(** [s.replace(old, new)] for a one-character [old]. *)
Fixpoint replace (old : ascii) (new : string) (s : string) : string :=
  match s with
  | EmptyString => EmptyString
  | String c s' =>
      if decide (c = old) then new +:+ replace old new s'
      else String c (replace old new s')
  end.

(** [sep.join(parts)] *)
Fixpoint join (sep : string) (parts : list string) : string :=
  match parts with
  | [] => EmptyString
  | [p] => p
  | p :: ps => p +:+ sep +:+ join sep ps
  end.

(** [s.split(sep)] for a one-character [sep]: empty fields are kept. *)
Fixpoint split_on (sep : ascii) (s : string) : list string :=
  match s with
  | EmptyString => [EmptyString]
  | String c s' =>
      if decide (c = sep) then EmptyString :: split_on sep s'
      else match split_on sep s' with
           | [] => [String c EmptyString]
           | w :: ws => String c w :: ws
           end
  end.

(** [s.split()]: fields separated by runs of whitespace, none empty.
    [cur] is the field being read, in order. *)
Fixpoint split_ws_aux (cur : string) (s : string) : list string :=
  match s with
  | EmptyString => if decide (cur = EmptyString) then [] else [cur]
  | String c s' =>
      if is_space c
      then (if decide (cur = EmptyString) then split_ws_aux EmptyString s'
            else cur :: split_ws_aux EmptyString s')
      else split_ws_aux (cur +:+ String c EmptyString) s'
  end.

Definition split_ws (s : string) : list string := split_ws_aux EmptyString s.

(** [s[:n]] *)
Fixpoint take (n : nat) (s : string) : string :=
  match n, s with
  | 0, _ => EmptyString
  | S _, EmptyString => EmptyString
  | S n', String c s' => String c (take n' s')
  end.

(** [str(i)] for a non-negative integer. *)
Definition str_nat (i : nat) : string := NilEmpty.string_of_uint (Nat.to_uint i).

(** [filter(None, parts)]: the non-empty strings. *)
Definition non_empty (s : string) : bool :=
  match s with EmptyString => false | _ => true end.

End Py.

(** ** Outcomes of a call *)

Inductive exn := ZeroDivisionError | IndexError | DatabaseError.

(** A call returns ([Ok]), raises ([Raise]), or is still inside a [while]
    loop when the bound the model puts on its iterations is reached
    ([Unfinished]; shown below not to happen). *)
Inductive result (A : Type) :=
| Ok (a : A)
| Raise (e : exn)
| Unfinished.
Arguments Ok {A} a.
Arguments Raise {A} e.
Arguments Unfinished {A}.

(** Sequencing, written [x ← m; k]: only [Ok] continues. *)
#[global] Instance result_bind : MBind result := fun A B k m =>
  match m with
  | Ok a => k a
  | Raise e => Raise e
  | Unfinished => Unfinished
  end.

(** ** The query engine ([chatbot.py]) *)

Module Chatbot.

(** [self]: the fields set by [__init__]. The schema is a Python dict,
    whose [keys()] come in insertion order. *)
Record InvestmentDataChatbot := {
  db_path : string;
  table_name : string;
  schema : list (string * string)
}.

Section Generators.
Variable self : InvestmentDataChatbot.

Definition any_in (words : list string) (question : string) : bool :=
  existsb (fun word => Py.contains word question) words.

Definition _generate_count_query (question : string) : string :=
  let base_query := "SELECT COUNT(*) as count FROM " +:+ table_name self in
  if Py.contains "company" question then
    if Py.contains "by company" question || Py.contains "per company" question then
      "SELECT company, COUNT(*) as count FROM " +:+ table_name self +:+
      " WHERE company IS NOT NULL AND company != '0' AND company != '' GROUP BY company ORDER BY count DESC"
    else
      base_query +:+ " WHERE company IS NOT NULL AND company != '0' AND company != ''"
  else if Py.contains "region" question then
    if Py.contains "by region" question || Py.contains "per region" question then
      "SELECT region, COUNT(*) as count FROM " +:+ table_name self +:+
      " WHERE region IS NOT NULL AND region != '0' AND region != '' GROUP BY region ORDER BY count DESC"
    else
      base_query +:+ " WHERE region IS NOT NULL AND region != '0' AND region != ''"
  else if Py.contains "project" question then
    base_query
  else if Py.contains "customer" question then
    if Py.contains "by customer" question then
      "SELECT customer, COUNT(*) as count FROM " +:+ table_name self +:+
      " WHERE customer IS NOT NULL AND customer != '0' AND customer != '' GROUP BY customer ORDER BY count DESC"
    else
      base_query +:+ " WHERE customer IS NOT NULL AND customer != '0' AND customer != ''"
  else base_query.

(** [[col for col in self.schema.keys() if 'budget' in col or ...]] *)
Definition budget_columns : list string :=
  filter (fun col => Py.contains "budget" col || Py.contains "total" col
                     || Py.contains "value" col = true)
         (map fst (schema self)).

Definition _generate_sum_query (question : string) : string :=
  match budget_columns with
  | main_budget_col :: _ =>
      if Py.contains "by company" question then
        "SELECT company, SUM(CAST(" +:+ main_budget_col +:+ " AS REAL)) as total FROM " +:+
        table_name self +:+
        " WHERE company IS NOT NULL AND company != '0' AND company != '' GROUP BY company ORDER BY total DESC"
      else if Py.contains "by region" question then
        "SELECT region, SUM(CAST(" +:+ main_budget_col +:+ " AS REAL)) as total FROM " +:+
        table_name self +:+
        " WHERE region IS NOT NULL AND region != '0' AND region != '' GROUP BY region ORDER BY total DESC"
      else
        "SELECT SUM(CAST(" +:+ main_budget_col +:+ " AS REAL)) as total FROM " +:+ table_name self
  | [] => "SELECT COUNT(*) as count FROM " +:+ table_name self
  end.

Definition _generate_avg_query (question : string) : string :=
  match budget_columns with
  | main_budget_col :: _ =>
      if Py.contains "by company" question then
        "SELECT Company, AVG(CAST(" +:+ main_budget_col +:+ " AS REAL)) as average FROM " +:+
        table_name self +:+
        " WHERE Company IS NOT NULL AND Company != '0' GROUP BY Company ORDER BY average DESC"
      else if Py.contains "by region" question then
        "SELECT Region, AVG(CAST(" +:+ main_budget_col +:+ " AS REAL)) as average FROM " +:+
        table_name self +:+
        " WHERE Region IS NOT NULL AND Region != '0' GROUP BY Region ORDER BY average DESC"
      else
        "SELECT AVG(CAST(" +:+ main_budget_col +:+ " AS REAL)) as average FROM " +:+ table_name self
  | [] => "SELECT COUNT(*) as count FROM " +:+ table_name self
  end.

Definition _generate_select_query (question : string) : string :=
  if Py.contains "company" question then
    "SELECT DISTINCT company FROM " +:+ table_name self +:+
    " WHERE company IS NOT NULL AND company != '0' AND company != '' ORDER BY company"
  else if Py.contains "region" question then
    "SELECT DISTINCT region FROM " +:+ table_name self +:+
    " WHERE region IS NOT NULL AND region != '0' AND region != '' ORDER BY region"
  else if Py.contains "customer" question then
    "SELECT DISTINCT customer FROM " +:+ table_name self +:+
    " WHERE customer IS NOT NULL AND customer != '0' AND customer != '' ORDER BY customer"
  else if Py.contains "plant" question then
    "SELECT DISTINCT plant FROM " +:+ table_name self +:+
    " WHERE plant IS NOT NULL AND plant != '0' AND plant != '' ORDER BY plant"
  else
    "SELECT * FROM " +:+ table_name self +:+ " LIMIT 10".

Definition _generate_max_query (question : string) : string :=
  match budget_columns with
  | main_budget_col :: _ =>
      "SELECT *, MAX(CAST(" +:+ main_budget_col +:+ " AS REAL)) as max_value FROM " +:+
      table_name self
  | [] => "SELECT * FROM " +:+ table_name self +:+ " LIMIT 1"
  end.

Definition _generate_min_query (question : string) : string :=
  match budget_columns with
  | main_budget_col :: _ =>
      "SELECT *, MIN(CAST(" +:+ main_budget_col +:+ " AS REAL)) as min_value FROM " +:+
      table_name self +:+ " WHERE CAST(" +:+ main_budget_col +:+ " AS REAL) > 0"
  | [] => "SELECT * FROM " +:+ table_name self +:+ " LIMIT 1"
  end.

Definition _generate_general_query (question : string) : string :=
  "SELECT * FROM " +:+ table_name self +:+ " LIMIT 10".

Definition _natural_language_to_sql (question : string) : string :=
  let question := Py.strip (Py.lower question) in
  if any_in ["count"; "how many"; "number of"] question then
    _generate_count_query question
  else if any_in ["total"; "sum"; "amount"] question then
    _generate_sum_query question
  else if any_in ["average"; "avg"; "mean"] question then
    _generate_avg_query question
  else if any_in ["list"; "show"; "display"; "get"] question then
    _generate_select_query question
  else if any_in ["maximum"; "max"; "highest"; "largest"] question then
    _generate_max_query question
  else if any_in ["minimum"; "min"; "lowest"; "smallest"] question then
    _generate_min_query question
  else
    _generate_general_query question.

End Generators.

(** A query result ([pd.DataFrame]): column labels and rows of values. *)
Record ResultFrame := {
  rf_columns : list string;
  rf_rows : list (list string)
}.

(** [pd.DataFrame()] *)
Definition DataFrame_new : ResultFrame := {| rf_columns := []; rf_rows := [] |}.

(** [df.empty]: some axis has length 0. *)
Definition empty (df : ResultFrame) : bool :=
  match rf_columns df, rf_rows df with
  | [], _ | _, [] => true
  | _, _ => false
  end.

(** The dictionary returned by [ask_question]. *)
Record Answer := {
  question : string;
  sql_query : string;
  results : ResultFrame;
  success : bool
}.

(** What the store gives for a statement: the rows, or an exception. *)
Inductive store_outcome :=
| Rows (df : ResultFrame)
| Failed (e : exn).

Section Store.
(** The relational store, an external collaborator: the outcome of
    [sqlite3.connect(db_path)] followed by
    [pd.read_sql_query(sql_query, conn)]. *)
Variable read_sql_query : string -> string -> store_outcome.
Variable self : InvestmentDataChatbot.

(** [try: ... return df / except Exception: return pd.DataFrame()] *)
Definition execute_query (sql_query : string) : result ResultFrame :=
  match read_sql_query (db_path self) sql_query with
  | Rows df => Ok df
  | Failed _ => Ok DataFrame_new
  end.

(** The [print] calls have no effect on the returned record. *)
Definition ask_question (question : string) : result Answer :=
  let sql_query := _natural_language_to_sql self question in
  result_df ← execute_query sql_query;
  if negb (empty result_df) then
    Ok {| question := question; sql_query := sql_query;
          results := result_df; success := true |}
  else
    Ok {| question := question; sql_query := sql_query;
          results := DataFrame_new; success := false |}.
End Store.

(** *** The dispatch as the specification words it *)

Inductive intent := COUNT | SUM | AVG | SELECT | MAX | MIN | GENERIC.

(** The keyword groups in their priority order. *)
Definition keyword_groups : list (intent * list string) :=
  [ (COUNT, ["count"; "how many"; "number of"]);
    (SUM, ["total"; "sum"; "amount"]);
    (AVG, ["average"; "avg"; "mean"]);
    (SELECT, ["list"; "show"; "display"; "get"]);
    (MAX, ["maximum"; "max"; "highest"; "largest"]);
    (MIN, ["minimum"; "min"; "lowest"; "smallest"]) ].

(** The intent of the first group with a keyword in the text, else
    the generic one. *)
Fixpoint first_matching_group (groups : list (intent * list string))
    (text : string) : intent :=
  match groups with
  | [] => GENERIC
  | (i, words) :: groups' =>
      if any_in words text then i else first_matching_group groups' text
  end.

(** The text the keywords are looked up in. *)
Definition normalized (question : string) : string := Py.strip (Py.lower question).

Definition classify (question : string) : intent :=
  first_matching_group keyword_groups (normalized question).

(** The template family of each intent. *)
Definition generate (self : InvestmentDataChatbot) (i : intent) (text : string) : string :=
  match i with
  | COUNT => _generate_count_query self text
  | SUM => _generate_sum_query self text
  | AVG => _generate_avg_query self text
  | SELECT => _generate_select_query self text
  | MAX => _generate_max_query self text
  | MIN => _generate_min_query self text
  | GENERIC => _generate_general_query self text
  end.

(** No schema column is budget-like. *)
Definition no_value_column (self : InvestmentDataChatbot) : Prop :=
  Forall (fun col => Py.contains "budget" col = false
                     /\ Py.contains "total" col = false
                     /\ Py.contains "value" col = false)
         (map fst (schema self)).

(** The sample deployment: the table written by the ingestion script. *)
Definition sample_bot (columns : list string) : InvestmentDataChatbot :=
  {| db_path := "investment_data_careful.db";
     table_name := "investment_projects";
     schema := map (fun col => (col, "TEXT")) columns |}.

(** The record returned when nothing came back. *)
Definition no_results (self : InvestmentDataChatbot) (q : string) : Answer :=
  {| question := q; sql_query := _natural_language_to_sql self q;
     results := DataFrame_new; success := false |}.

(** A COUNT query: it selects a row count. *)
Definition is_count_query (sql : string) : bool := Py.contains "COUNT(*)" sql.

(** The filter that keeps a dimension's NULL, sentinel and empty values
    out of a query. *)
Definition excludes_null_zero_empty (d sql : string) : bool :=
  Py.contains (d +:+ " IS NOT NULL") sql
  && Py.contains (d +:+ " != '0'") sql
  && Py.contains (d +:+ " != ''") sql.

End Chatbot.

(** ** The ingestion pipeline ([clean_and_update_headers.py]) *)

Module Ingest.

(** A cell of the raw sheet. The three missing values are the ones
    [pd.isna] accepts; any other value is represented by [str(val)]. *)
Inductive cell :=
| NaN                   (* float('nan') *)
| PyNone                (* None *)
| PdNA                  (* pd.NA *)
| Value (text : string).

Definition isna (val : cell) : bool :=
  match val with Value _ => false | _ => true end.

Definition notna (val : cell) : bool := negb (isna val).

(** [str(val)], also what [astype(str)] stores. *)
Definition str (val : cell) : string :=
  match val with
  | NaN => "nan"
  | PyNone => "None"
  | PdNA => "<NA>"
  | Value text => text
  end.

#[global] Instance cell_inhabited : Inhabited cell := populate NaN.

(** A frame read with [header=None]: [len(df.columns)] and the rows. *)
Record DataFrame := {
  ncols : nat;
  rows : list (list cell)
}.

Definition len (df : DataFrame) : nat := length (rows df).

(** [df.iloc[i]] for [i >= 0] *)
Definition iloc (df : DataFrame) (i : nat) : result (list cell) :=
  match rows df !! i with
  | Some row => Ok row
  | None => Raise IndexError
  end.

(** [range(a, b)] *)
Definition range (a b : nat) : list nat := seq a (b - a).

(** [n / d] on integers; the quotient is kept exact. The float that
    Python computes orders the same way for any sheet of fewer than
    2^50 columns. *)
Definition true_div (n d : nat) : result Q :=
  if d =? 0 then Raise ZeroDivisionError
  else Ok (Z.of_nat n # Pos.of_nat d).

Definition Qgtb (x y : Q) : bool := negb (Qle_bool x y).

(** *** [find_data_boundaries] *)

(** [' '.join(str(val).lower() for val in row if pd.notna(val))] *)
Definition row_text (row : list cell) : string :=
  Py.join " " (map (fun val => Py.lower (str val)) (List.filter notna row)).

Definition header_indicators (row_text : string) : list (string * bool) :=
  [ ("id", Py.contains "id" row_text
           && (Py.contains "change" row_text || Py.contains "delete" row_text));
    ("company", Py.contains "company" row_text);
    ("region", Py.contains "region" row_text);
    ("plant", Py.contains "plant" row_text);
    ("customer", Py.contains "customer" row_text);
    ("description", Py.contains "description" row_text);
    ("investment", Py.contains "investment" row_text);
    ("budget", Py.contains "budget" row_text) ].

(** [sum(header_indicators.values())] *)
Definition score (indicators : list (string * bool)) : nat :=
  sum_list (map (fun kv : string * bool => if snd kv then 1 else 0) indicators).

(** The first loop: [Some i] at the [break], [None] when it runs out. *)
Fixpoint header_scan (df : DataFrame) (todo : list nat) : result (option nat) :=
  match todo with
  | [] => Ok None
  | i :: todo' =>
      row ← iloc df i;
      if 4 <=? score (header_indicators (row_text row)) then Ok (Some i)
      else header_scan df todo'
  end.

(** [sum(1 for val in row if pd.notna(val) and str(val).strip() != '')] *)
Definition non_empty_count (row : list cell) : nat :=
  length (List.filter
            (fun val => notna val && negb (String.eqb (Py.strip (str val)) "")) row).

(** The density loop, on the state [(max_density, header_row)]. *)
Fixpoint density_scan (df : DataFrame) (todo : list nat)
    (max_density : Q) (header_row : option nat) : result (Q * option nat) :=
  match todo with
  | [] => Ok (max_density, header_row)
  | i :: todo' =>
      row ← iloc df i;
      let non_empty := non_empty_count row in
      density ← true_div non_empty (ncols df);
      if Qgtb density max_density && Qgtb density (3 # 10)
      then density_scan df todo' density (Some i)
      else density_scan df todo' max_density header_row
  end.

Definition instruction_indicators : list string :=
  [ "mandatory"; "optional"; "select"; "input"; "formula"; "linked";
    "default"; "fill in"; "do not add"; "delete"; "collumn" ].

(** The instruction loop, on the state [data_start_row]; the range was
    fixed before the first iteration. *)
Fixpoint instruction_scan (df : DataFrame) (todo : list nat)
    (data_start_row : nat) : result nat :=
  match todo with
  | [] => Ok data_start_row
  | i :: todo' =>
      row ← iloc df i;
      if existsb (fun indicator => Py.contains indicator (row_text row))
           instruction_indicators
      then instruction_scan df todo' (i + 1)
      else Ok data_start_row
  end.

Definition find_data_boundaries (df : DataFrame) : result (nat * nat) :=
  found ← header_scan df (range 0 (min 25 (len df)));
  header_row ←
    match found with
    | Some i => Ok i
    | None =>
        st ← density_scan df (range 0 (min 15 (len df))) 0%Q None;
        match snd st with
        | Some i => Ok i
        | None => Ok 8
        end
    end;
  let data_start_row := header_row + 1 in
  data_start_row ←
    instruction_scan df
      (range data_start_row (min (data_start_row + 10) (len df))) data_start_row;
  Ok (header_row, data_start_row).

(** *** [create_careful_headers] *)

(** The last branch: general cleaning of [header_str]. *)
Definition general_cleaning (i : nat) (header_str : string) : string :=
  let clean_name := header_str in
  let clean_name :=
    Py.replace " " "_" (Py.replace "-" "_" (Py.replace "/" "_" clean_name)) in
  let clean_name :=
    Py.replace "]" "" (Py.replace "[" "" (Py.replace ")" "" (Py.replace "(" "" clean_name))) in
  let clean_name :=
    Py.replace "'" "" (Py.replace "034" ""
      (Py.replace "013" "_" (Py.replace "010" "_" clean_name))) in
  let clean_name :=
    Py.replace "&" "and" (Py.replace "!" "" (Py.replace "?" "" clean_name)) in
  let clean_name :=
    Py.join "_" (List.filter Py.non_empty (Py.split_on "_" clean_name)) in
  let clean_name :=
    if 60 <? String.length clean_name then Py.take 60 clean_name else clean_name in
  if negb (Py.non_empty clean_name) || String.eqb clean_name "_"
  then "column_" +:+ Py.str_nat i
  else clean_name.

(** [header_str] after the multi-line and whitespace clean-up. *)
Definition normalize_header (header : cell) : string :=
  let header_str := Py.strip (str header) in
  let header_str := Py.replace "013" " " (Py.replace "010" " " header_str) in
  Py.join " " (Py.split_ws header_str).

(** The value of [clean_name] before the duplicate handling. *)
Definition clean_name_of (used_names : gset string) (i : nat) (header : cell) : string :=
  if isna header || String.eqb (Py.strip (str header)) "" then
    "column_" +:+ Py.str_nat i
  else
    let header_str := normalize_header header in
    let header_lower := Py.lower header_str in
    if Py.contains "id" header_lower
       && (Py.contains "change" header_lower || Py.contains "delete" header_lower
           || Py.contains "add" header_lower) then "project_id"
    else if String.eqb header_lower "company" then "company"
    else if String.eqb header_lower "region" then "region"
    else if String.eqb header_lower "plant" then "plant"
    else if String.eqb header_lower "customer" then "customer"
    else if Py.contains "cost center" header_lower then
      if decide ("cost_center" ∉ used_names) then "cost_center"
      else "cost_center_" +:+ Py.str_nat i
    else if Py.contains "description" header_lower then
      if decide ("description" ∉ used_names) then "description"
      else "description_" +:+ Py.str_nat i
    else if Py.contains "investment" header_lower && Py.contains "category" header_lower then
      "investment_category"
    else if Py.contains "budget" header_lower || Py.contains "total" header_lower then
      "budget_" +:+ Py.str_nat i
    else if Py.contains "april" header_lower && Py.contains "2025" header_lower then
      "april_2025"
    else if Py.contains "may" header_lower && Py.contains "2025" header_lower then
      "may_2025"
    else general_cleaning i header_str.

(** The [while final_name in used_names] loop; [fuel] bounds the number
    of times its body runs. *)
Fixpoint unique_loop (fuel : nat) (used_names : gset string)
    (clean_lower final_name : string) (counter : nat) {struct fuel} : result string :=
  if decide (final_name ∈ used_names) then
    match fuel with
    | 0 => Unfinished
    | S fuel' =>
        unique_loop fuel' used_names clean_lower
          (clean_lower +:+ "_" +:+ Py.str_nat counter) (counter + 1)
    end
  else Ok final_name.

(** [final_name] for one header: every name of [used_names] can make
    the loop body run at most once. *)
Definition final_name_of (used_names : gset string) (i : nat) (header : cell)
  : result string :=
  let clean_name := clean_name_of used_names i header in
  unique_loop (size used_names) used_names (Py.lower clean_name) (Py.lower clean_name) 1.

(** [for i, header in enumerate(headers)], from index [i] on. *)
Fixpoint headers_loop (i : nat) (headers : list cell)
    (used_names : gset string) (cleaned_headers : list string)
  : result (list string) :=
  match headers with
  | [] => Ok cleaned_headers
  | header :: headers' =>
      final_name ← final_name_of used_names i header;
      headers_loop (S i) headers' ({[final_name]} ∪ used_names)
        (cleaned_headers ++ [final_name])
  end.

(** The repair pass of the duplicate check. *)
Fixpoint fix_duplicates (i : nat) (cleaned_headers : list string)
    (final_used : gset string) (final_headers : list string) : list string :=
  match cleaned_headers with
  | [] => final_headers
  | header :: rest =>
      if decide (header ∈ final_used) then
        let new_header := header +:+ "_" +:+ Py.str_nat i in
        fix_duplicates (S i) rest ({[new_header]} ∪ final_used)
          (final_headers ++ [new_header])
      else
        fix_duplicates (S i) rest ({[header]} ∪ final_used) (final_headers ++ [header])
  end.

(** The body of [create_careful_headers] after
    [headers = df.iloc[header_row].tolist()]. *)
Definition careful_headers (headers : list cell) : result (list string) :=
  cleaned_headers ← headers_loop 0 headers ∅ [];
  if decide (length cleaned_headers ≠ size (list_to_set cleaned_headers : gset string))
  then Ok (fix_duplicates 0 cleaned_headers ∅ [])
  else Ok cleaned_headers.

Definition create_careful_headers (df : DataFrame) (header_row : nat)
  : result (list string) :=
  headers ← iloc df header_row;
  careful_headers headers.

(** *** [extract_actual_data] *)

(** [data_df.iloc[:, i].astype(str)]; a short row reads as missing. *)
Definition column_str (data : list (list cell)) (i : nat) : list string :=
  map (fun row : list cell => str (row !!! i)) data.

Definition cell_has_data (v : string) : bool :=
  negb (String.eqb (Py.strip v) "") && negb (String.eqb v "0")
  && negb (String.eqb v "nan") && negb (String.eqb v "NaN").

(** [for i in range(key_columns): has_data_mask = has_data_mask | (...)] *)
Fixpoint has_data_loop (data : list (list cell)) (todo : list nat)
    (has_data_mask : list bool) : list bool :=
  match todo with
  | [] => has_data_mask
  | i :: todo' =>
      let col_values := column_str data i in
      has_data_loop data todo'
        (zip_with orb has_data_mask (map cell_has_data col_values))
  end.

(** [data_df[has_data_mask]] *)
Definition select_rows (data : list (list cell)) (mask : list bool) : list (list cell) :=
  map fst (List.filter snd (zip data mask)).

Definition extract_actual_data (df : DataFrame) (data_start_row : nat) : DataFrame :=
  let data_df := drop data_start_row (rows df) in
  let key_columns := min 5 (ncols df) in
  let has_data_mask := replicate (length data_df) false in
  let has_data_mask := has_data_loop data_df (range 0 key_columns) has_data_mask in
  {| ncols := ncols df; rows := select_rows data_df has_data_mask |}.

(** *** [ultra_careful_cleaning] *)

(** A frame after [astype(str)]. *)
Record TextFrame := {
  t_ncols : nat;
  t_rows : list (list string)
}.

Definition astype_str (df : DataFrame) : TextFrame :=
  {| t_ncols := ncols df; t_rows := map (map str) (rows df) |}.

(** [mask = test(df[col]); df.loc[mask, col] = '0'] *)
Definition set_zero_where (test : string -> bool) (col : nat)
    (data : list (list string)) : list (list string) :=
  map (fun row : list string =>
         match row !! col with
         | Some v => if test v then <[col := "0"]> row else row
         | None => row
         end) data.

Definition nan_representations : list string := ["nan"; "NaN"; "<NA>"; "None"].

Definition error_values : list string :=
  ["#VALUE!"; "#REF!"; "#DIV/0!"; "#N/A"; "#NAME?"; "#NULL!"; "#NUM!"].

(** The body of [for col in df.columns], the column taken by position. *)
Definition clean_column (data : list (list string)) (col : nat) : list (list string) :=
  let data :=
    foldl (fun data nan_val => set_zero_where (fun v => String.eqb v nan_val) col data)
          data nan_representations in
  let data := set_zero_where (fun v => String.eqb v "") col data in
  let data := set_zero_where (fun v => String.eqb (Py.strip v) "") col data in
  foldl (fun data error_val => set_zero_where (fun v => String.eqb v error_val) col data)
        data error_values.

Definition ultra_careful_cleaning (df : DataFrame) : TextFrame :=
  let df := astype_str df in
  {| t_ncols := t_ncols df;
     t_rows := foldl clean_column (t_rows df) (range 0 (t_ncols df)) |}.

(** *** Vocabulary of the specification *)

(** The text stored at row [r], column [c]. *)
Definition cell_at (data : list (list string)) (r c : nat) : option string :=
  row ← data !! r; row !! c.

Definition recognized_nan_text : list string := ["nan"; "NaN"; "<NA>"; "None"].

Definition spreadsheet_error_codes : list string :=
  ["#VALUE!"; "#REF!"; "#DIV/0!"; "#N/A"; "#NAME?"; "#NULL!"; "#NUM!"].

Fixpoint all_space (s : string) : bool :=
  match s with
  | EmptyString => true
  | String c s' => Py.is_space c && all_space s'
  end.

(** Empty, whitespace-only, a NaN rendering or an error code. *)
Definition blank_like (text : string) : bool :=
  String.eqb text "" || all_space text
  || bool_decide (text ∈ recognized_nan_text)
  || bool_decide (text ∈ spreadsheet_error_codes).

(** Row [i] of the sheet (empty beyond its end). *)
Definition row_at (df : DataFrame) (i : nat) : list cell :=
  default [] (rows df !! i).

(** The indicator score of row [i], out of 8. *)
Definition score_at (df : DataFrame) (i : nat) : nat :=
  score (header_indicators (row_text (row_at df i))).

(** Row [i] is among the first 25 and scores at least 4. *)
Definition qualifies (df : DataFrame) (i : nat) : Prop :=
  i < min 25 (len df) /\ 4 <= score_at df i.

(** The fraction of non-blank cells of row [i]. *)
Definition density (df : DataFrame) (i : nat) : Q :=
  Z.of_nat (non_empty_count (row_at df i)) # Pos.of_nat (ncols df).

(** Row [i] is among the first 15 and more than 0.3 of it is filled. *)
Definition dense (df : DataFrame) (i : nat) : Prop :=
  i < min 15 (len df) /\ (3 # 10 < density df i)%Q.

(** The text of row [i] has an instruction term. *)
Definition is_instruction_row (df : DataFrame) (i : nat) : bool :=
  existsb (fun indicator => Py.contains indicator (row_text (row_at df i)))
    instruction_indicators.

(** The header row: the earliest qualifying row; failing that, the
    earliest of the densest rows, if dense; failing that, row 8. *)
Definition header_row_spec (df : DataFrame) (h : nat) : Prop :=
  (qualifies df h /\ forall j, j < h -> ~ qualifies df j)
  \/ ((forall i, ~ qualifies df i)
      /\ dense df h
      /\ (forall j, j < min 15 (len df) -> (density df j <= density df h)%Q)
      /\ (forall j, j < h -> (density df j < density df h)%Q))
  \/ ((forall i, ~ qualifies df i) /\ (forall i, ~ dense df i) /\ h = 8).

(** The data start: [k] instruction rows are skipped after the header
    row, at most 10 and all inside the sheet; the scan stops at the first
    row that is not one, after the tenth row, or at the end of the sheet. *)
Definition data_start_spec (df : DataFrame) (h d : nat) : Prop :=
  exists k,
    d = h + 1 + k /\ k <= 10
    /\ (forall j, h + 1 <= j -> j < d -> j < len df /\ is_instruction_row df j = true)
    /\ (k < 10 -> d < len df -> is_instruction_row df d = false).

(** A sheet as the readers give it: a row comes with a column. *)
Definition has_columns (df : DataFrame) : Prop :=
  0 < ncols df \/ rows df = [].

(** A rule of [create_careful_headers] that comes before the month
    rules applies to the lower-cased header text. *)
Definition earlier_rule (header_lower : string) : bool :=
  (Py.contains "id" header_lower
   && (Py.contains "change" header_lower || Py.contains "delete" header_lower
       || Py.contains "add" header_lower))
  || String.eqb header_lower "company" || String.eqb header_lower "region"
  || String.eqb header_lower "plant" || String.eqb header_lower "customer"
  || Py.contains "cost center" header_lower
  || Py.contains "description" header_lower
  || (Py.contains "investment" header_lower && Py.contains "category" header_lower)
  || (Py.contains "budget" header_lower || Py.contains "total" header_lower).

Definition month_names : list string :=
  [ "january"; "february"; "march"; "april"; "may"; "june"; "july";
    "august"; "september"; "october"; "november"; "december" ].

(** The name a column gets when the uniqueness loop has to count:
    [f"{clean_lower}_{counter}"]. *)
Definition suffixed (clean_lower : string) (counter : nat) : string :=
  clean_lower +:+ "_" +:+ Py.str_nat counter.

(** What the assignments of one column iteration do to one text. *)
Definition clean_text (v : string) : string :=
  let zero_if (test : string -> bool) (v : string) := if test v then "0" else v in
  let v := foldl (fun v nan_val => zero_if (fun v => String.eqb v nan_val) v)
                 v nan_representations in
  let v := zero_if (fun v => String.eqb v "") v in
  let v := zero_if (fun v => String.eqb (Py.strip v) "") v in
  foldl (fun v error_val => zero_if (fun v => String.eqb v error_val) v) v error_values.

(** The bound on a clean name: 60 characters, or what an index of
    many digits needs. *)
Definition name_bound (i : nat) : nat := Nat.max 60 (12 + String.length (Py.str_nat i)).

(** What is known of the name at index [idx]: it is the lower-cased
    form of a clean name within the bound, alone or with a counter. The
    bound is on the clean name, which the code caps before it lower-cases
    it. *)
Definition entry_ok (idx : nat) (name : string) : Prop :=
  name <> ""
  /\ exists clean_name,
       String.length clean_name <= name_bound idx
       /\ (name = Py.lower clean_name
           \/ exists k, (1 <= k /\ k <= idx)
                        /\ name = suffixed (Py.lower clean_name) k).

(** What the density loop knows after the rows below [a]. *)
Definition density_inv (df : DataFrame) (a : nat) (m : Q) (hr : option nat) : Prop :=
  match hr with
  | None => m = 0%Q /\ forall j, j < a -> (density df j <= 3 # 10)%Q
  | Some h =>
      h < a /\ m = density df h /\ (3 # 10 < density df h)%Q
      /\ (forall j, j < a -> (density df j <= density df h)%Q)
      /\ (forall j, j < h -> (density df j < density df h)%Q)
  end.

(** The key cells of a row hold something: one of the first [k] cells
    has data. *)
Definition row_has_data (k : nat) (row : list cell) : bool :=
  existsb (fun i => cell_has_data (str (row !!! i))) (seq 0 k).

End Ingest.

(** ** The shells around the query engine ([chatbot.py]) *)

Module Shell.
Import Chatbot.

(** A row of [PRAGMA table_info]: the code reads its fields 1 (name) and
    2 (declared type). *)
Record column_info := {
  ci_name : string;
  ci_type : string
}.

(** What the PRAGMA statement gives: its rows, or an exception. *)
Inductive pragma_outcome :=
| Columns (columns : list column_info)
| PragmaFailed (e : exn).

(** [schema[key] = value] on a dict, which keeps the place of a key it
    already has. *)
Fixpoint dict_set (key value : string) (d : list (string * string))
  : list (string * string) :=
  match d with
  | [] => [(key, value)]
  | (k, v) :: d' =>
      if String.eqb k key then (k, value) :: d'
      else (k, v) :: dict_set key value d'
  end.

(** [d.get(key)] *)
Fixpoint dict_get (key : string) (d : list (string * string)) : option string :=
  match d with
  | [] => None
  | (k, v) :: d' => if String.eqb k key then Some v else dict_get key d'
  end.

Section Startup.
(** The store's answer to [PRAGMA table_info(table_name)] on [db_path]. *)
Variable table_info : string -> string -> pragma_outcome.

(** [try: ... return schema / except Exception: return {}] *)
Definition _get_table_schema (db_path table_name : string) : list (string * string) :=
  match table_info db_path table_name with
  | Columns columns =>
      foldl (fun schema col => dict_set (Py.lower (ci_name col)) (ci_type col) schema)
            [] columns
  | PragmaFailed _ => []
  end.

Definition __init__ (db_path : string) : InvestmentDataChatbot :=
  {| db_path := db_path;
     table_name := "investment_projects";
     schema := _get_table_schema db_path "investment_projects" |}.
End Startup.

(** What one turn of [interactive_mode] does. *)
Inductive action :=
| SayGoodbye
| ShowHelp                          (* self._show_help() *)
| ShowColumns                       (* self.show_available_columns() *)
| AskQuestion (question : string)   (* self.ask_question(question) *)
| AskForInput.                      (* "Please enter a question ..." *)

(** How the loop is left: by its [break], or by the [EOFError] of
    [input] when no line is left. *)
Inductive session_end := Quit | EndOfInput.

(** [while True: question = input(...).strip(); ...] on the lines typed. *)
Fixpoint interactive_mode (inputs : list string) : list action * session_end :=
  match inputs with
  | [] => ([], EndOfInput)
  | line :: inputs' =>
      let question := Py.strip line in
      if bool_decide (Py.lower question ∈ ["quit"; "exit"; "bye"]) then
        ([SayGoodbye], Quit)
      else
        let act :=
          if String.eqb (Py.lower question) "help" then ShowHelp
          else if String.eqb (Py.lower question) "columns" then ShowColumns
          else if Py.non_empty question then AskQuestion question
          else AskForInput in
        (act :: fst (interactive_mode inputs'), snd (interactive_mode inputs'))
  end.

(** The action of a turn that does not leave the loop. *)
Definition turn (question : string) : action :=
  if String.eqb (Py.lower question) "help" then ShowHelp
  else if String.eqb (Py.lower question) "columns" then ShowColumns
  else if Py.non_empty question then AskQuestion question
  else AskForInput.

(** A line that leaves the loop. *)
Definition quit_word (line : string) : Prop :=
  Py.lower (Py.strip line) ∈ ["quit"; "exit"; "bye"].

(** The statements the generators can return for a chatbot: the ones
    that need no value column, then the ones built on the first
    budget-like column. *)
Definition sql_templates (self : InvestmentDataChatbot) : list string :=
  let t := table_name self in
  let base_query := "SELECT COUNT(*) as count FROM " +:+ t in
  [ "SELECT company, COUNT(*) as count FROM " +:+ t +:+
    " WHERE company IS NOT NULL AND company != '0' AND company != '' GROUP BY company ORDER BY count DESC";
    base_query +:+ " WHERE company IS NOT NULL AND company != '0' AND company != ''";
    "SELECT region, COUNT(*) as count FROM " +:+ t +:+
    " WHERE region IS NOT NULL AND region != '0' AND region != '' GROUP BY region ORDER BY count DESC";
    base_query +:+ " WHERE region IS NOT NULL AND region != '0' AND region != ''";
    "SELECT customer, COUNT(*) as count FROM " +:+ t +:+
    " WHERE customer IS NOT NULL AND customer != '0' AND customer != '' GROUP BY customer ORDER BY count DESC";
    base_query +:+ " WHERE customer IS NOT NULL AND customer != '0' AND customer != ''";
    base_query;
    "SELECT DISTINCT company FROM " +:+ t +:+
    " WHERE company IS NOT NULL AND company != '0' AND company != '' ORDER BY company";
    "SELECT DISTINCT region FROM " +:+ t +:+
    " WHERE region IS NOT NULL AND region != '0' AND region != '' ORDER BY region";
    "SELECT DISTINCT customer FROM " +:+ t +:+
    " WHERE customer IS NOT NULL AND customer != '0' AND customer != '' ORDER BY customer";
    "SELECT DISTINCT plant FROM " +:+ t +:+
    " WHERE plant IS NOT NULL AND plant != '0' AND plant != '' ORDER BY plant";
    "SELECT * FROM " +:+ t +:+ " LIMIT 10";
    "SELECT * FROM " +:+ t +:+ " LIMIT 1" ]
  ++ match budget_columns self with
     | [] => []
     | c :: _ =>
         [ "SELECT company, SUM(CAST(" +:+ c +:+ " AS REAL)) as total FROM " +:+ t +:+
           " WHERE company IS NOT NULL AND company != '0' AND company != '' GROUP BY company ORDER BY total DESC";
           "SELECT region, SUM(CAST(" +:+ c +:+ " AS REAL)) as total FROM " +:+ t +:+
           " WHERE region IS NOT NULL AND region != '0' AND region != '' GROUP BY region ORDER BY total DESC";
           "SELECT SUM(CAST(" +:+ c +:+ " AS REAL)) as total FROM " +:+ t;
           "SELECT Company, AVG(CAST(" +:+ c +:+ " AS REAL)) as average FROM " +:+ t +:+
           " WHERE Company IS NOT NULL AND Company != '0' GROUP BY Company ORDER BY average DESC";
           "SELECT Region, AVG(CAST(" +:+ c +:+ " AS REAL)) as average FROM " +:+ t +:+
           " WHERE Region IS NOT NULL AND Region != '0' GROUP BY Region ORDER BY average DESC";
           "SELECT AVG(CAST(" +:+ c +:+ " AS REAL)) as average FROM " +:+ t;
           "SELECT *, MAX(CAST(" +:+ c +:+ " AS REAL)) as max_value FROM " +:+ t;
           "SELECT *, MIN(CAST(" +:+ c +:+ " AS REAL)) as min_value FROM " +:+ t +:+
           " WHERE CAST(" +:+ c +:+ " AS REAL) > 0" ]
     end.

(** A column name the aggregates can work on. *)
Definition budget_like (col : string) : bool :=
  Py.contains "budget" col || Py.contains "total" col || Py.contains "value" col.

End Shell.

(** ** The ingestion run ([main] of [clean_and_update_headers.py]) *)

Module Pipeline.
Import Ingest.

(** Every row has [len(df.columns)] cells, as in any frame pandas builds. *)
Definition rectangular (df : DataFrame) : Prop :=
  Forall (fun row => length row = ncols df) (rows df).

(** How steps 3 to 6 of [main] end: with the column names and the records
    handed to the database step, with an exception that [main] does not
    catch, or with the [ValueError] of [data_df.columns = headers] when the
    number of names is not the number of columns. *)
Inductive main_outcome :=
| Handed (headers : list string) (records : list (list string))
| Escaped (e : exn)
| LengthMismatch
| StillRunning.

(** Steps 3 to 6 of [main]; step 2, [analyze_raw_data], only prints and
    returns its frame. *)
Definition main_steps (df : DataFrame) : main_outcome :=
  match find_data_boundaries df with
  | Ok (header_row, data_start_row) =>
      match create_careful_headers df header_row with
      | Ok headers =>
          let data_df := extract_actual_data df data_start_row in
          if decide (length headers = ncols data_df) then
            let data_df := ultra_careful_cleaning data_df in
            Handed headers (t_rows data_df)
          else LengthMismatch
      | Raise e => Escaped e
      | Unfinished => StillRunning
      end
  | Raise e => Escaped e
  | Unfinished => StillRunning
  end.

(** A frame of texts read back as a frame of cells. *)
Definition as_values (t : TextFrame) : DataFrame :=
  {| ncols := t_ncols t; rows := map (map Value) (t_rows t) |}.

(** A header cell that gets an index name. *)
Definition blank_header (header : cell) : bool :=
  isna header || String.eqb (Py.strip (str header)) "".

(** [f'column_{i}'] *)
Definition column_name (i : nat) : string := "column_" +:+ Py.str_nat i.

(** No character of [s] is [c]. *)
Fixpoint absent (c : ascii) (s : string) : bool :=
  match s with
  | EmptyString => true
  | String x s' => negb (Ascii.eqb x c) && absent c s'
  end.

(** The characters no column name has: whitespace, and the punctuation
    that the general cleaning replaces or removes. *)
Definition unwanted_chars : list ascii :=
  [ "009"; "010"; "011"; "012"; "013"; "028"; "029"; "030"; "031"; " ";
    "133"; "160";
    "/"; "-"; "("; ")"; "["; "]"; "034"; "'"; "?"; "!"; "&" ]%char.

(** A name without unwanted characters. *)
Definition plain (name : string) : bool :=
  forallb (fun c => absent c name) unwanted_chars.

(** The replacements of the general cleaning. *)
Definition replaced (header_str : string) : string :=
  Py.replace "&" "and" (Py.replace "!" "" (Py.replace "?" ""
    (Py.replace "'" "" (Py.replace "034" ""
      (Py.replace "013" "_" (Py.replace "010" "_"
        (Py.replace "]" "" (Py.replace "[" "" (Py.replace ")" "" (Py.replace "(" ""
          (Py.replace " " "_" (Py.replace "-" "_" (Py.replace "/" "_" header_str))))))))))))).

(** The end of the general cleaning: underscores collapsed, length
    capped, index name for an empty result. *)
Definition tidied (i : nat) (clean_name : string) : string :=
  let clean_name :=
    Py.join "_" (List.filter Py.non_empty (Py.split_on "_" clean_name)) in
  let clean_name :=
    if 60 <? String.length clean_name then Py.take 60 clean_name else clean_name in
  if negb (Py.non_empty clean_name) || String.eqb clean_name "_"
  then "column_" +:+ Py.str_nat i
  else clean_name.

End Pipeline.

(** * Properties *)

(** ** Strings *)

Module PyFacts.
Import Py.

#[local] Arguments String.append : simpl nomatch.

Lemma app_assoc_s (a b c : string) : (a +:+ b) +:+ c = a +:+ (b +:+ c).
Proof. induction a as [|x a IH]; simpl; [done | by rewrite IH]. Qed.

Lemma length_app_s (a b : string) :
  String.length (a +:+ b) = String.length a + String.length b.
Proof. induction a as [|x a IH]; simpl; [done | by rewrite IH]. Qed.

Lemma lower_app (a b : string) : lower (a +:+ b) = lower a +:+ lower b.
Proof. induction a as [|x a IH]; simpl; [done | by rewrite IH]. Qed.

Lemma starts_with_spec (p s : string) :
  starts_with p s = true <-> exists b, s = p +:+ b.
Proof.
  revert s. induction p as [|x p IH]; intros s; simpl.
  - split; [intros _; by exists s | done].
  - destruct s as [|y s].
    + split; [done | intros [b Hb]; discriminate].
    + case_decide as Hxy.
      * subst y. rewrite IH. split; intros [b Hb]; exists b; simpl in *; congruence.
      * split; [done | intros [b Hb]; simpl in Hb; congruence].
Qed.

(** [contains] is the substring relation. *)
Lemma contains_spec (sub s : string) :
  contains sub s = true <-> exists a b, s = a +:+ sub +:+ b.
Proof.
  induction s as [|y s IH].
  - cbn [contains]. rewrite orb_false_r, starts_with_spec. split.
    + intros [b Hb]. by exists "", b.
    + intros [a [b Hab]]. destruct a; [by exists b | discriminate].
  - cbn [contains]. rewrite orb_true_iff, starts_with_spec, IH. split.
    + intros [[b Hb] | [a [b Hab]]].
      * by exists "", b.
      * exists (String y a), b. simpl. by rewrite Hab.
    + intros [a [b Hab]]. destruct a as [|x a].
      * left. by exists b.
      * right. exists a, b. simpl in Hab. congruence.
Qed.

Lemma contains_lower (sub s : string) :
  contains sub s = true -> contains (lower sub) (lower s) = true.
Proof.
  rewrite !contains_spec. intros [a [b ->]].
  exists (lower a), (lower b). by rewrite !lower_app.
Qed.

(** A substring that starts with a non-space survives [lstrip]. *)
Lemma contains_lstrip (c : ascii) (sub s : string) :
  is_space c = false ->
  contains (String c sub) s = true -> contains (String c sub) (lstrip s) = true.
Proof.
  intros Hc. induction s as [|y s IH]; [done|].
  intros H. cbn [lstrip]. destruct (is_space y) eqn:Hy; [|done].
  apply IH. apply contains_spec in H as [a [b Hab]].
  destruct a as [|x a]; simpl in Hab.
  - simplify_eq. rewrite Hc in Hy. discriminate.
  - apply contains_spec. exists a, b. by simplify_eq.
Qed.

Lemma rstrip_cons (y : ascii) (s : string) :
  rstrip s <> "" -> rstrip (String y s) = String y (rstrip s).
Proof. cbn [rstrip]. by destruct (rstrip s). Qed.

(** The part of a string up to a non-space character survives [rstrip]. *)
Lemma rstrip_keeps_prefix (p : string) (c : ascii) (b : string) :
  is_space c = false ->
  exists b', rstrip (p +:+ String c b) = p +:+ String c b'.
Proof.
  intros Hc. induction p as [|x p IH].
  - simpl. destruct (rstrip b) eqn:Hb.
    + rewrite Hc. by exists "".
    + by eexists.
  - destruct IH as [b' Hb']. exists b'.
    change (String x p +:+ String c b) with (String x (p +:+ String c b)).
    rewrite rstrip_cons; rewrite Hb'; [done | by destruct p].
Qed.

Lemma contains_rstrip (sub : string) (c : ascii) (s : string) :
  is_space c = false ->
  contains (sub +:+ String c "") s = true ->
  contains (sub +:+ String c "") (rstrip s) = true.
Proof.
  intros Hc. rewrite !contains_spec. intros [a [b ->]].
  assert (Hshape : forall t, a +:+ (sub +:+ String c "") +:+ t
                             = (a +:+ sub) +:+ String c t).
  { intros t. by rewrite !app_assoc_s. }
  destruct (rstrip_keeps_prefix (a +:+ sub) c b Hc) as [b' Hb'].
  exists a, b'. by rewrite !Hshape.
Qed.

Lemma contains_strip (c d : ascii) (m s : string) :
  is_space c = false -> is_space d = false ->
  contains (String c (m +:+ String d "")) s = true ->
  contains (String c (m +:+ String d "")) (strip s) = true.
Proof.
  intros Hc Hd H. unfold strip.
  apply (contains_rstrip (String c m) d); [done|].
  by apply contains_lstrip.
Qed.

End PyFacts.

(** ** The query engine *)

Module ChatbotFacts.
Import Py PyFacts Chatbot.

(** The if-chain of [_natural_language_to_sql] is the dispatch on the
    first matching keyword group. *)
Lemma dispatch_is_first_match (self : InvestmentDataChatbot) (q : string) :
  _natural_language_to_sql self q = generate self (classify q) (normalized q).
Proof.
  unfold _natural_language_to_sql, classify, keyword_groups. fold (normalized q).
  cbn [first_matching_group].
  repeat (match goal with
          | |- context [any_in ?ws ?t] => destruct (any_in ws t); [reflexivity|]
          end).
  reflexivity.
Qed.

Lemma count_word_wins (q : string) :
  contains "count" (normalized q) = true -> classify q = COUNT.
Proof.
  intros H. unfold classify, keyword_groups. cbn [first_matching_group any_in existsb].
  by rewrite H.
Qed.

(** C5: the intent is that of the first keyword group, in the fixed
    order count, total, average, list, maximum, minimum, that has a word in
    the lower-cased, stripped question, and the generic one when none has;
    the generated SQL comes from that intent's templates alone. A question
    that contains both "count" and "average" is answered by the COUNT
    templates. *)
Theorem intent_priority (self : InvestmentDataChatbot) (q : string) :
  _natural_language_to_sql self q = generate self (classify q) (normalized q)
  /\ (contains "count" q = true -> contains "average" q = true ->
      classify q = COUNT
      /\ _natural_language_to_sql self q = _generate_count_query self (normalized q)).
Proof.
  split; [apply dispatch_is_first_match|].
  intros Hcount _.
  assert (classify q = COUNT) as Hc.
  { apply count_word_wins. unfold normalized.
    apply (contains_strip "c" "t" "oun"); [done..|].
    by apply (contains_lower "count"). }
  split; [done|]. by rewrite dispatch_is_first_match, Hc.
Qed.

Lemma intent_priority_witness :
  classify "average count of companies" = COUNT
  /\ _natural_language_to_sql (sample_bot ["company"; "budget_5"])
       "average count of companies"
     = "SELECT COUNT(*) as count FROM investment_projects".
Proof.
  destruct (proj2 (intent_priority (sample_bot ["company"; "budget_5"])
                     "average count of companies") eq_refl eq_refl) as [Hc Hsql].
  split; [exact Hc|]. rewrite Hsql. reflexivity.
Defined.

Lemma no_value_column_budget_columns (self : InvestmentDataChatbot) :
  no_value_column self -> budget_columns self = [].
Proof.
  unfold no_value_column, budget_columns.
  induction (map fst (schema self)) as [|col cols IH]; [done|].
  intros Hall. apply Forall_cons in Hall as [(Hb & Ht & Hv) Hall].
  rewrite filter_cons_False; [by apply IH|]. by rewrite Hb, Ht, Hv.
Qed.

(** C6, as amended: when no schema column is budget-like, a question
    classified SUM or AVG gets the unfiltered COUNT query, and a question
    classified MAX or MIN gets the one-row [SELECT *] query. *)
Theorem aggregate_fallback (self : InvestmentDataChatbot) (q : string) :
  no_value_column self ->
  (classify q = SUM \/ classify q = AVG ->
   _natural_language_to_sql self q = "SELECT COUNT(*) as count FROM " +:+ table_name self)
  /\ (classify q = MAX \/ classify q = MIN ->
      _natural_language_to_sql self q = "SELECT * FROM " +:+ table_name self +:+ " LIMIT 1").
Proof.
  intros Hno. apply no_value_column_budget_columns in Hno.
  rewrite dispatch_is_first_match.
  split; intros [-> | ->]; cbn [generate];
    unfold _generate_sum_query, _generate_avg_query,
           _generate_max_query, _generate_min_query; by rewrite Hno.
Qed.

Lemma aggregate_fallback_witness :
  _natural_language_to_sql (sample_bot ["company"; "region"]) "What is the total budget?"
  = "SELECT COUNT(*) as count FROM investment_projects"
  /\ _natural_language_to_sql (sample_bot ["company"; "region"]) "Which project is the largest?"
    = "SELECT * FROM investment_projects LIMIT 1".
Proof.
  assert (no_value_column (sample_bot ["company"; "region"])) as Hno.
  { repeat constructor. }
  split.
  - apply (aggregate_fallback _ "What is the total budget?" Hno). by left.
  - apply (aggregate_fallback _ "Which project is the largest?" Hno). by left.
Defined.

(** C6 as stated fails: with no budget-like column, a MAX question is
    not answered by a COUNT query. *)
Lemma aggregate_fallback_max_is_not_count :
  ~ (forall (self : InvestmentDataChatbot) (q : string),
       no_value_column self ->
       classify q = SUM \/ classify q = AVG \/ classify q = MAX \/ classify q = MIN ->
       is_count_query (_natural_language_to_sql self q) = true).
Proof.
  intros H.
  specialize (H (sample_bot ["company"; "region"]) "Which project is the largest?").
  assert (no_value_column (sample_bot ["company"; "region"])) as Hno.
  { repeat constructor. }
  specialize (H Hno (or_intror (or_intror (or_introl eq_refl)))).
  vm_compute in H. discriminate.
Qed.

(** C7 at the failing input: the grouped AVG query for the help text's
    own question filters NULL and the sentinel but not the empty string,
    which the grouped COUNT and SUM queries on the same dimension do. *)
Theorem avg_group_by_keeps_empty_dimension :
  let self := sample_bot ["company"; "region"; "budget_5"] in
  let avg := _natural_language_to_sql self "What is the average budget by company?" in
  let total := _natural_language_to_sql self "What is the total budget by company?" in
  let count := _natural_language_to_sql self "Count projects by company" in
  classify "What is the average budget by company?" = AVG
  /\ avg = "SELECT Company, AVG(CAST(budget_5 AS REAL)) as average FROM investment_projects WHERE Company IS NOT NULL AND Company != '0' GROUP BY Company ORDER BY average DESC"
  /\ contains "GROUP BY Company" avg = true
  /\ contains "!= ''" avg = false
  /\ excludes_null_zero_empty "Company" avg = false
  /\ (contains "GROUP BY company" total = true
      /\ excludes_null_zero_empty "company" total = true)
  /\ (contains "GROUP BY company" count = true
      /\ excludes_null_zero_empty "company" count = true).
Proof. vm_compute. by repeat split. Qed.

(** C8 at its two questions: the first gets the unfiltered row count;
    the second matches no dimension keyword ("companies" does not contain
    "company") and gets the ten-row [SELECT *] instead of the distinct
    companies. *)
Theorem show_all_companies_selects_everything (self : InvestmentDataChatbot) :
  _natural_language_to_sql self "How many projects are there?"
  = "SELECT COUNT(*) as count FROM " +:+ table_name self
  /\ contains "company" (normalized "Show all companies") = false
  /\ _natural_language_to_sql self "Show all companies"
    = "SELECT * FROM " +:+ table_name self +:+ " LIMIT 10".
Proof. done. Qed.

Section StoreFacts.
Variable read_sql_query : string -> string -> store_outcome.
Variable self : InvestmentDataChatbot.

Lemma execute_query_failed (sql : string) (e : exn) :
  read_sql_query (db_path self) sql = Failed e ->
  execute_query read_sql_query self sql = Ok DataFrame_new.
Proof. unfold execute_query. by intros ->. Qed.

Lemma execute_query_total (sql : string) :
  exists df, execute_query read_sql_query self sql = Ok df.
Proof. unfold execute_query. destruct (read_sql_query _ _); by eexists. Qed.
End StoreFacts.

(** C10: [ask_question] returns a record for every question and every
    behaviour of the store. A failing execution gives the empty frame, a
    successful one the frame of the store. The success flag is true exactly
    when the store answered with a frame that is not empty, and the record
    then carries that frame; a statement that runs and yields no row gives
    the same record as one that fails. *)
Theorem success_flag_semantics
    (read_sql_query : string -> string -> store_outcome)
    (self : InvestmentDataChatbot) (q : string) :
  let sql := _natural_language_to_sql self q in
  (forall sql' e, read_sql_query (db_path self) sql' = Failed e ->
                  execute_query read_sql_query self sql' = Ok DataFrame_new)
  /\ (forall sql' df, read_sql_query (db_path self) sql' = Rows df ->
                      execute_query read_sql_query self sql' = Ok df)
  /\ (exists df a,
        execute_query read_sql_query self sql = Ok df
        /\ ask_question read_sql_query self q = Ok a
        /\ question a = q /\ sql_query a = sql
        /\ (success a = true <-> empty df = false)
        /\ (empty df = true -> a = no_results self q))
  /\ (forall e, read_sql_query (db_path self) sql = Failed e ->
                ask_question read_sql_query self q = Ok (no_results self q))
  /\ (forall df, read_sql_query (db_path self) sql = Rows df -> rf_rows df = [] ->
                 ask_question read_sql_query self q = Ok (no_results self q))
  /\ (forall df, read_sql_query (db_path self) sql = Rows df -> empty df = false ->
                 ask_question read_sql_query self q
                 = Ok {| question := q; sql_query := sql; results := df; success := true |})
  /\ (forall a, ask_question read_sql_query self q = Ok a ->
                (success a = true
                 <-> exists df, read_sql_query (db_path self) sql = Rows df
                                /\ empty df = false /\ results a = df)).
Proof.
  intros sql. split; [apply execute_query_failed|].
  split; [by intros sql' df Hdf; unfold execute_query; rewrite Hdf|].
  split; [|split; [|split; [|split]]].
  - destruct (execute_query_total read_sql_query self sql) as [df Hdf].
    unfold ask_question. fold sql. rewrite Hdf. cbn.
    destruct (empty df) eqn:He; cbn; do 2 eexists;
      (split; [done|]); (split; [done|]); cbn; rewrite ?He; intuition congruence.
  - intros e He. unfold ask_question, execute_query. fold sql. by rewrite He.
  - intros df Hdf Hrows. unfold ask_question, execute_query. fold sql.
    rewrite Hdf. cbn. unfold empty. rewrite Hrows. by destruct (rf_columns df).
  - intros df Hdf He. unfold ask_question, execute_query. fold sql.
    rewrite Hdf. cbn [mbind result_bind]. by rewrite He.
  - intros a. unfold ask_question, execute_query. fold sql.
    destruct (read_sql_query (db_path self) sql) as [df|e] eqn:Hstore;
      cbn [mbind result_bind].
    + destruct (empty df) eqn:He; cbn [negb]; intros [= <-]; cbn [success results].
      * split; [done|]. intros (df' & [= <-] & He' & _). congruence.
      * split; [|done]. intros _. by exists df.
    + change (empty DataFrame_new) with true. cbn [negb]. intros [= <-]. cbn [success].
      split; [done|]. by intros (df' & [=] & _).
Qed.

Lemma success_flag_semantics_witness :
  ask_question (fun _ _ => Rows {| rf_columns := ["count"]; rf_rows := [] |})
               (sample_bot ["company"]) "How many projects are there?"
  = Ok (no_results (sample_bot ["company"]) "How many projects are there?")
  /\ ask_question (fun _ _ => Failed DatabaseError)
                  (sample_bot ["company"]) "How many projects are there?"
    = Ok (no_results (sample_bot ["company"]) "How many projects are there?")
  /\ ask_question (fun _ _ => Rows {| rf_columns := ["count"]; rf_rows := [["12"]] |})
                  (sample_bot ["company"]) "How many projects are there?"
    = Ok {| question := "How many projects are there?";
            sql_query := "SELECT COUNT(*) as count FROM investment_projects";
            results := {| rf_columns := ["count"]; rf_rows := [["12"]] |};
            success := true |}.
Proof.
  split; [|split].
  - apply (proj1 (proj2 (proj2 (proj2 (proj2 (success_flag_semantics
             (fun _ _ => Rows {| rf_columns := ["count"]; rf_rows := [] |})
             (sample_bot ["company"]) "How many projects are there?")))))
             {| rf_columns := ["count"]; rf_rows := [] |}); reflexivity.
  - apply (proj1 (proj2 (proj2 (proj2 (success_flag_semantics
             (fun _ _ => Failed DatabaseError)
             (sample_bot ["company"]) "How many projects are there?"))))
             DatabaseError); reflexivity.
  - apply (proj1 (proj2 (proj2 (proj2 (proj2 (proj2 (success_flag_semantics
             (fun _ _ => Rows {| rf_columns := ["count"]; rf_rows := [["12"]] |})
             (sample_bot ["company"]) "How many projects are there?"))))))
             {| rf_columns := ["count"]; rf_rows := [["12"]] |}); reflexivity.
Defined.

End ChatbotFacts.

(** ** The ingestion pipeline *)

Module IngestFacts.
Import Py PyFacts Ingest.

#[local] Arguments String.append : simpl nomatch.

(** *** Blank normalisation *)

Lemma cell_at_set_zero_where test col data r c :
  cell_at (set_zero_where test col data) r c
  = (fun v => if decide (c = col) then (if test v then "0" else v) else v)
      <$> cell_at data r c.
Proof.
  unfold cell_at, set_zero_where. rewrite list_lookup_fmap.
  destruct (data !! r) as [row|]; [|done]. cbn.
  destruct (decide (c = col)) as [->|Hne].
  - destruct (row !! col) as [v|] eqn:Hv; cbn; [|by rewrite Hv].
    destruct (test v); cbn; [|by rewrite Hv].
    rewrite list_lookup_insert_eq; [done|]. by eapply lookup_lt_Some.
  - destruct (row !! col) as [v|]; [|by destruct (row !! c)].
    destruct (test v); [|by destruct (row !! c)].
    rewrite list_lookup_insert_ne by done. by destruct (row !! c).
Qed.

Lemma cell_at_fold_set_zero (f : string -> string -> bool) lits col data r c :
  cell_at (foldl (fun data lit => set_zero_where (fun v => f v lit) col data) data lits) r c
  = (fun v => if decide (c = col)
              then foldl (fun v lit => if f v lit then "0" else v) v lits
              else v) <$> cell_at data r c.
Proof.
  revert data. induction lits as [|lit lits IH]; intros data; cbn [foldl].
  - destruct (cell_at data r c); cbn; [|done]. by case_decide.
  - rewrite IH, cell_at_set_zero_where.
    destruct (cell_at data r c); cbn; [|done]. by case_decide.
Qed.

Lemma cell_at_clean_column data col r c :
  cell_at (clean_column data col) r c
  = (fun v => if decide (c = col) then clean_text v else v) <$> cell_at data r c.
Proof.
  unfold clean_column.
  rewrite (cell_at_fold_set_zero String.eqb error_values).
  rewrite !cell_at_set_zero_where.
  rewrite (cell_at_fold_set_zero String.eqb nan_representations).
  destruct (cell_at data r c); cbn; [|done]. by case_decide.
Qed.

Lemma cell_at_clean_columns data n r c :
  cell_at (foldl clean_column data (seq 0 n)) r c
  = (fun v => if decide (c < n) then clean_text v else v) <$> cell_at data r c.
Proof.
  induction n as [|n IH].
  - cbn. by destruct (cell_at data r c).
  - rewrite seq_S, foldl_app. cbn [foldl].
    rewrite cell_at_clean_column, IH.
    destruct (cell_at data r c); cbn -[clean_text]; [|done]. f_equal.
    destruct (decide (c = n)) as [->|]; repeat case_decide; try done; lia.
Qed.

Lemma strip_empty_all_space (s : string) : strip s = "" <-> all_space s = true.
Proof.
  unfold strip. induction s as [|x s IH]; [done|].
  cbn [lstrip all_space]. destruct (is_space x) eqn:Hx; [done|].
  cbn [andb]. split; [|done].
  cbn [rstrip]. destruct (rstrip s); [by rewrite Hx | done].
Qed.

(** Case on each comparison of [v] with a literal; when [v] is the
    literal both sides compute. *)
Ltac case_literals v :=
  repeat match goal with
         | |- context [String.eqb v ?lit] =>
             destruct (String.eqb_spec v lit) as [->|?]; [by vm_compute|]
         end.

(** One column iteration normalises a text: the sentinel for a
    blank-like text, the text itself otherwise. *)
Lemma clean_text_spec (v : string) :
  clean_text v = if blank_like v then "0" else v.
Proof.
  unfold clean_text, nan_representations, error_values. cbn [foldl].
  case_literals v.
  destruct (String.eqb (strip v) "") eqn:Hs.
  - apply String.eqb_eq, strip_empty_all_space in Hs.
    unfold blank_like. rewrite Hs, orb_true_r. by vm_compute.
  - assert (all_space v = false) as Hws.
    { destruct (all_space v) eqn:E; [|done].
      apply strip_empty_all_space in E. rewrite E in Hs. done. }
    unfold blank_like. rewrite Hws.
    case_literals v.
    rewrite !bool_decide_eq_false_2; [done|..];
      unfold spreadsheet_error_codes, recognized_nan_text;
      rewrite ?elem_of_cons, elem_of_nil; intuition congruence.
Qed.

Lemma cell_at_ultra_careful_cleaning (df : DataFrame) r c row v :
  rows df !! r = Some row -> row !! c = Some v -> c < ncols df ->
  cell_at (t_rows (ultra_careful_cleaning df)) r c
  = Some (if blank_like (str v) then "0" else str v).
Proof.
  intros Hr Hc Hlt. unfold ultra_careful_cleaning, range.
  cbn [t_rows t_ncols astype_str].
  rewrite Nat.sub_0_r, cell_at_clean_columns.
  assert (cell_at (map (map str) (rows df)) r c = Some (str v)) as ->.
  { unfold cell_at. rewrite list_lookup_fmap, Hr. cbn [fmap option_fmap option_map mbind option_bind].
    by rewrite list_lookup_fmap, Hc. }
  cbn [fmap option_fmap option_map]. case_decide; [|lia].
  by rewrite clean_text_spec.
Qed.

(** C3, as amended: a cell is stored as "0" exactly when its text
    is blank-like (empty, whitespace-only, a NaN rendering, an error code) or
    is already "0"; the text of any cell that is not blank-like is stored
    unchanged. *)
Theorem blank_normalization (df : DataFrame) (r c : nat) (row : list cell) (v : cell) :
  rows df !! r = Some row -> row !! c = Some v -> c < ncols df ->
  exists stored,
    cell_at (t_rows (ultra_careful_cleaning df)) r c = Some stored
    /\ (stored = "0" <-> blank_like (str v) = true \/ str v = "0")
    /\ (blank_like (str v) = false -> stored = str v).
Proof.
  intros Hr Hc Hlt. eexists. split; [by eapply cell_at_ultra_careful_cleaning|].
  destruct (blank_like (str v)); intuition congruence.
Qed.

Lemma blank_normalization_witness :
  cell_at (t_rows (ultra_careful_cleaning
                     {| ncols := 2; rows := [[Value "#N/A"; Value " x "]] |})) 0 1
  = Some " x ".
Proof.
  destruct (blank_normalization {| ncols := 2; rows := [[Value "#N/A"; Value " x "]] |}
              0 1 [Value "#N/A"; Value " x "] (Value " x ") eq_refl eq_refl)
    as (stored & Hstored & _ & Hkeep); [cbn; lia|].
  rewrite Hstored. f_equal. apply Hkeep. reflexivity.
Defined.

(** C3 as stated fails: a cell whose text is "0" is stored as "0"
    although its text is none of the blank-like ones. *)
Lemma blank_normalization_zero_text :
  ~ (forall (df : DataFrame) (r c : nat) (row : list cell) (v : cell),
       rows df !! r = Some row -> row !! c = Some v -> c < ncols df ->
       (cell_at (t_rows (ultra_careful_cleaning df)) r c = Some "0"
        <-> blank_like (str v) = true)).
Proof.
  intros H.
  specialize (H {| ncols := 1; rows := [[Value "0"]] |} 0 0 [Value "0"] (Value "0")
                eq_refl eq_refl (Nat.lt_0_succ 0)).
  destruct H as [H _]. specialize (H eq_refl). vm_compute in H. discriminate.
Qed.

(** *** Row retention *)

Lemma zip_with_orb_map {A} (f g : A -> bool) (data : list A) (mask : list bool) :
  zip_with orb (zip_with orb mask (map f data)) (map g data)
  = zip_with orb mask (map (fun x => f x || g x) data).
Proof.
  revert mask. induction data as [|x data IH]; intros [|b mask]; cbn; [done..|].
  by rewrite IH, orb_assoc.
Qed.

Lemma zip_with_orb_false {A} (data : list A) (mask : list bool) :
  length mask = length data ->
  zip_with orb mask (map (fun _ => false) data) = mask.
Proof.
  revert mask. induction data as [|x data IH]; intros [|b mask] Hlen; cbn in *;
    try done. rewrite IH by lia. by rewrite orb_false_r.
Qed.

Lemma has_data_loop_spec (data : list (list cell)) (todo : list nat) (mask : list bool) :
  length mask = length data ->
  has_data_loop data todo mask
  = zip_with orb mask
      (map (fun row : list cell =>
              existsb (fun i => cell_has_data (str (row !!! i))) todo) data).
Proof.
  revert mask. induction todo as [|i todo IH]; intros mask Hlen; cbn [has_data_loop existsb].
  - by rewrite zip_with_orb_false.
  - rewrite IH.
    + unfold column_str. rewrite map_map. apply zip_with_orb_map.
    + unfold column_str. rewrite length_zip_with, !length_map. lia.
Qed.

Lemma zip_with_orb_replicate_false (mask : list bool) :
  zip_with orb (replicate (length mask) false) mask = mask.
Proof. induction mask as [|b mask IH]; cbn; [done | by rewrite IH]. Qed.

Lemma select_rows_map (f : list cell -> bool) (data : list (list cell)) :
  select_rows data (map f data) = List.filter f data.
Proof.
  unfold select_rows. induction data as [|row data IH]; cbn; [done|].
  destruct (f row); cbn; by rewrite IH.
Qed.

(** The rows [extract_actual_data] returns: those from [data_start_row]
    on with data in a key cell, each whole and in order. *)
Lemma extract_actual_data_rows (df : DataFrame) (data_start_row : nat) :
  rows (extract_actual_data df data_start_row)
  = List.filter (row_has_data (min 5 (ncols df))) (drop data_start_row (rows df)).
Proof.
  unfold extract_actual_data, range. cbn [rows]. rewrite Nat.sub_0_r.
  rewrite has_data_loop_spec by apply length_replicate.
  set (f := fun row : list cell => existsb _ _).
  rewrite <- (length_map f) at 1.
  rewrite zip_with_orb_replicate_false. apply select_rows_map.
Qed.

(** A cell text has no data exactly when it is blank, "0", "nan" or
    "NaN": the two other NaN renderings count as data. *)
Lemma cell_has_data_false (t : string) :
  cell_has_data t = false
  <-> all_space t = true \/ t = "0" \/ t = "nan" \/ t = "NaN".
Proof.
  unfold cell_has_data. rewrite !andb_false_iff, !negb_false_iff, !String.eqb_eq.
  rewrite strip_empty_all_space. tauto.
Qed.

Lemma row_has_data_false (k : nat) (row : list cell) :
  row_has_data k row = false
  <-> forall i, i < k ->
        let t := str (row !!! i) in
        all_space t = true \/ t = "0" \/ t = "nan" \/ t = "NaN".
Proof.
  unfold row_has_data. rewrite <- not_true_iff_false, existsb_exists. split.
  - intros Hno i Hi. apply cell_has_data_false, not_true_iff_false.
    intros Hd. apply Hno. exists i. split; [|done]. apply in_seq. lia.
  - intros Hall (i & Hi%in_seq & Hd).
    specialize (Hall i ltac:(lia)). apply cell_has_data_false in Hall. congruence.
Qed.

(** What the retention mask does: the rows kept are those from the
    data start on with data in one of the first min(5, column count) cells,
    whole and in order; a row is dropped exactly when each of these cells is
    blank, "0", "nan" or "NaN". *)
Lemma rows_kept (df : DataFrame) (data_start_row : nat) :
  let k := min 5 (ncols df) in
  ncols (extract_actual_data df data_start_row) = ncols df
  /\ rows (extract_actual_data df data_start_row)
     = List.filter (row_has_data k) (drop data_start_row (rows df))
  /\ (forall row,
        row ∈ rows (extract_actual_data df data_start_row)
        <-> row ∈ drop data_start_row (rows df) /\ row_has_data k row = true)
  /\ (forall row,
        row_has_data k row = false
        <-> forall i, i < k ->
              let t := str (row !!! i) in
              all_space t = true \/ t = "0" \/ t = "nan" \/ t = "NaN").
Proof.
  intros k. split; [done|]. split; [apply extract_actual_data_rows|]. split.
  - intros row. rewrite extract_actual_data_rows, !list_elem_of_In, filter_In. done.
  - intros row. apply row_has_data_false.
Qed.


(** *** Header naming *)

Lemma str_nat_inj (a b : nat) : str_nat a = str_nat b -> a = b.
Proof.
  unfold str_nat. intros H.
  assert (Nat.to_uint a = Nat.to_uint b) as Hu.
  { apply (f_equal NilEmpty.uint_of_string) in H.
    rewrite !NilEmpty.usu in H. congruence. }
  apply (f_equal Nat.of_uint) in Hu. by rewrite !DecimalNat.Unsigned.of_to in Hu.
Qed.

Lemma app_inv_head_s (a x y : string) : a +:+ x = a +:+ y -> x = y.
Proof. induction a as [|c a IH]; cbn; [done|]. intros [=]. auto. Qed.

Lemma suffixed_inj (clean : string) (a b : nat) :
  suffixed clean a = suffixed clean b -> a = b.
Proof.
  unfold suffixed. intros H. apply app_inv_head_s in H.
  apply (app_inv_head_s "_") in H. by apply str_nat_inj.
Qed.

Lemma suffixed_neq (clean : string) (k : nat) : suffixed clean k <> clean.
Proof.
  unfold suffixed. intros H. apply (f_equal String.length) in H.
  rewrite !length_app_s in H. cbn in H. lia.
Qed.

(** The uniqueness loop started with [U], the names of [used_names] it
    can still run into, no more than its fuel: it ends on a fresh name. *)
Lemma unique_loop_spec (used : gset string) (clean : string) :
  forall (fuel : nat) (final : string) (counter : nat) (U : gset string),
    size U <= fuel ->
    (final ∈ used -> final ∈ U) ->
    (forall k, counter <= k -> suffixed clean k ∈ used -> suffixed clean k ∈ U) ->
    (forall k, counter <= k -> suffixed clean k <> final) ->
    exists name,
      unique_loop fuel used clean final counter = Ok name
      /\ (name ∉ used)
      /\ (name = final
          \/ exists k, (counter <= k /\ k < counter + fuel) /\ name = suffixed clean k).
Proof.
  induction fuel as [|fuel IH]; intros final counter U Hsize Hfinal Hcand Hfresh;
    cbn [unique_loop]; destruct (decide (final ∈ used)) as [Hin|Hout];
    try (exists final; by auto).
  - apply Hfinal in Hin. assert (size U = 0) as HU by lia.
    apply size_empty_inv in HU. rewrite (leibniz_equiv _ _ HU) in Hin.
    by apply not_elem_of_empty in Hin.
  - destruct (IH (suffixed clean counter) (counter + 1) (U ∖ {[final]})) as (name & Hrun & Hnew & Hshape).
    + assert (size (U ∖ {[final]}) = size U - 1).
      { rewrite size_difference by (apply singleton_subseteq_l; auto).
        by rewrite size_singleton. }
      lia.
    + intros Hc. apply elem_of_difference. split; [apply Hcand; [lia | done]|].
      apply not_elem_of_singleton, Hfresh. lia.
    + intros k Hk Hc. apply elem_of_difference. split; [apply Hcand; [lia | done]|].
      apply not_elem_of_singleton, Hfresh. lia.
    + intros k Hk Heq. apply suffixed_inj in Heq. lia.
    + exists name. split; [exact Hrun|]. split; [exact Hnew|]. right.
      destruct Hshape as [-> | (k & Hk & ->)]; [exists counter | exists k]; split; (lia || done).
Qed.

(** The loop of one header ends, on a name not yet used: the
    lower-cased clean name, or that name with a counter. *)
Lemma final_name_of_spec (used : gset string) (i : nat) (header : cell) :
  exists name,
    final_name_of used i header = Ok name
    /\ (name ∉ used)
    /\ (lower (clean_name_of used i header) ∉ used ->
        name = lower (clean_name_of used i header))
    /\ (name = lower (clean_name_of used i header)
        \/ exists k, (1 <= k /\ k <= size used)
                     /\ name = suffixed (lower (clean_name_of used i header)) k).
Proof.
  unfold final_name_of. set (c := lower (clean_name_of used i header)).
  destruct (unique_loop_spec used c (size used) c 1 used) as (name & Hrun & Hnew & Hshape);
    [done | done | done | intros k _; apply suffixed_neq |].
  exists name. split; [exact Hrun|]. split; [exact Hnew|]. split.
  - intros Hfree. destruct (size used); cbn [unique_loop] in Hrun;
      rewrite decide_False in Hrun by done; congruence.
  - destruct Hshape as [-> | (k & Hk & ->)]; [by left|]. right. exists k. split; [lia|done].
Qed.

Lemma take_length_le (n : nat) (s : string) : String.length (take n s) <= n.
Proof.
  revert s. induction n as [|n IH]; intros [|c s]; cbn; try lia.
  specialize (IH s). lia.
Qed.

Lemma non_empty_true (s : string) : non_empty s = true <-> s <> "".
Proof. by destruct s. Qed.

Lemma lower_non_empty (s : string) : s <> "" -> lower s <> "".
Proof. by destruct s. Qed.

Lemma general_cleaning_ok (i : nat) (header_str : string) :
  general_cleaning i header_str <> ""
  /\ String.length (general_cleaning i header_str) <= name_bound i.
Proof.
  unfold general_cleaning, name_bound. cbv zeta.
  set (c := Py.join "_" _).
  set (c' := if 60 <? String.length c then take 60 c else c).
  assert (String.length c' <= 60) as Hlen.
  { subst c'. destruct (Nat.ltb_spec 60 (String.length c)); [apply take_length_le | lia]. }
  destruct (non_empty c') eqn:Hne; cbn [negb orb].
  - destruct (String.eqb c' "_").
    + rewrite length_app_s. cbn [String.length]. split; [done | lia].
    + apply non_empty_true in Hne. split; [done | lia].
  - rewrite length_app_s. cbn [String.length]. split; [done | lia].
Qed.

(** Every branch of the naming rules gives a non-empty name within the
    bound. *)
Lemma clean_name_of_ok (used : gset string) (i : nat) (header : cell) :
  clean_name_of used i header <> ""
  /\ String.length (clean_name_of used i header) <= name_bound i.
Proof.
  unfold clean_name_of. cbv zeta.
  repeat (match goal with
          | |- context [if ?b then _ else _] =>
              lazymatch b with
              | context [if _ then _ else _] => fail
              | _ => destruct b
              end
          end);
    try apply general_cleaning_ok;
    unfold name_bound; rewrite ?length_app_s; cbn [String.length];
    (split; [done | lia]).
Qed.

Lemma suffixed_non_empty (base : string) (k : nat) : suffixed base k <> "".
Proof.
  unfold suffixed. intros H. apply (f_equal String.length) in H.
  rewrite !length_app_s in H. cbn in H. lia.
Qed.

Lemma headers_loop_spec (headers : list cell) :
  forall (i : nat) (used : gset string) (cleaned : list string),
    used = list_to_set cleaned -> NoDup cleaned -> length cleaned = i ->
    exists out,
      headers_loop i headers used cleaned = Ok (cleaned ++ out)
      /\ length out = length headers
      /\ NoDup (cleaned ++ out)
      /\ (forall j name, out !! j = Some name -> entry_ok (i + j) name).
Proof.
  induction headers as [|header headers IH]; intros i used cleaned Hused Hnd Hlen;
    cbn [headers_loop].
  - exists []. rewrite app_nil_r. by auto.
  - destruct (final_name_of_spec used i header) as (name & Hrun & Hnew & _ & Hshape).
    rewrite Hrun. cbn [mbind result_bind].
    assert (name ∉ cleaned) as Hnotin.
    { intros Hc. apply Hnew. subst used. by apply elem_of_list_to_set. }
    destruct (IH (S i) ({[name]} ∪ used) (cleaned ++ [name])) as (out & Hloop & Hout & Hnd' & Hent).
    + subst used. rewrite list_to_set_app_L, list_to_set_singleton_L.
      apply (comm_L (∪)).
    + apply NoDup_app. split; [done|]. split; [|apply NoDup_singleton].
      intros x Hx ->%list_elem_of_singleton. done.
    + rewrite length_app. cbn. lia.
    + exists (name :: out). rewrite <- app_assoc in Hloop, Hnd'. cbn in Hloop, Hnd'.
      split; [exact Hloop|]. split; [cbn; by rewrite Hout|]. split; [exact Hnd'|].
      intros [|j] name' Hj; cbn in Hj.
      * injection Hj as <-. rewrite Nat.add_0_r.
        assert (size used = i) as Hsz.
        { subst used. by rewrite size_list_to_set. }
        destruct (clean_name_of_ok used i header) as [Hne Hb].
        split.
        { destruct Hshape as [-> | (k & _ & ->)];
            [by apply lower_non_empty | apply suffixed_non_empty]. }
        exists (clean_name_of used i header). split; [exact Hb|].
        destruct Hshape as [-> | (k & Hk & ->)]; [by left|].
        right. exists k. split; [lia | done].
      * replace (i + S j) with (S i + j) by lia. by apply Hent.
Qed.

(** [create_careful_headers] names the cells of the header row, and
    raises when the sheet has no such row. *)
Lemma create_careful_headers_row (df : DataFrame) (header_row : nat) :
  create_careful_headers df header_row
  = match rows df !! header_row with
    | Some headers => careful_headers headers
    | None => Raise IndexError
    end.
Proof. unfold create_careful_headers, iloc. by destruct (rows df !! header_row). Qed.

(** C2, as amended: the names have the length of the header row, are
    pairwise distinct and non-empty. The cap of 60 characters is on the
    clean name, before it is lower-cased and before the uniqueness suffix:
    each name is the lower-cased form of a clean name within the bound (60
    characters for any index of up to 48 digits), alone or followed by an
    underscore and a uniqueness counter between 1 and its index. *)
Theorem header_naming (headers : list cell) :
  exists names,
    careful_headers headers = Ok names
    /\ length names = length headers
    /\ NoDup names
    /\ (forall j name, names !! j = Some name -> entry_ok j name).
Proof.
  assert (NoDup (@nil string)) as Hnil by constructor.
  destruct (headers_loop_spec headers 0 ∅ [] ltac:(done) Hnil ltac:(done))
    as (out & Hloop & Hlen & Hnd & Hent).
  cbn in Hloop, Hnd. exists out. unfold careful_headers.
  rewrite Hloop. cbn [mbind result_bind].
  rewrite decide_False; [by auto|].
  intros Hneq. apply Hneq. by rewrite size_list_to_set.
Qed.

Lemma header_naming_witness :
  exists names,
    careful_headers [Value "Company"; NaN; Value "company"] = Ok names
    /\ length names = 3 /\ NoDup names
    /\ (forall name, names !! 2 = Some name -> entry_ok 2 name).
Proof.
  destruct (header_naming [Value "Company"; NaN; Value "company"])
    as (names & Hrun & Hlen & Hnd & Hent).
  exists names. auto.
Defined.

(** C2 as stated fails: two headers with the same 60 characters give a
    second name of 62 characters. *)
Lemma header_naming_suffix_exceeds_60 :
  ~ (forall (headers : list cell) (names : list string),
       careful_headers headers = Ok names ->
       length names = length headers /\ NoDup names
       /\ Forall (fun name => name <> "" /\ String.length name <= 60) names).
Proof.
  intros H.
  pose (h := Value "net_present_value_of_the_investment_after_tax_in_local_money").
  destruct (H [h; h]
              ["net_present_value_of_the_investment_after_tax_in_local_money";
               "net_present_value_of_the_investment_after_tax_in_local_money_1"]
              eq_refl) as (_ & _ & Hall).
  apply Forall_cons in Hall as [_ Hall]. apply Forall_cons in Hall as [[_ Hlen] _].
  vm_compute in Hlen. lia.
Qed.

(** *** The month rules *)

Lemma normalize_header_blank (text : string) :
  strip text = "" -> lower (normalize_header (Value text)) = "".
Proof. unfold normalize_header. cbn [str]. by intros ->. Qed.

(** The rule reached by a header that no earlier rule takes. *)
Lemma clean_name_of_month (used : gset string) (i : nat) (text : string) :
  let header_lower := lower (normalize_header (Value text)) in
  earlier_rule header_lower = false ->
  contains "2025" header_lower = true ->
  (contains "april" header_lower = true ->
   clean_name_of used i (Value text) = "april_2025")
  /\ (contains "april" header_lower = false -> contains "may" header_lower = true ->
      clean_name_of used i (Value text) = "may_2025").
Proof.
  intros header_lower Hrule Hyear.
  assert (strip text <> "") as Hnb.
  { intros Hb. apply normalize_header_blank in Hb.
    fold header_lower in Hb. rewrite Hb in Hyear. done. }
  unfold earlier_rule in Hrule.
  repeat (apply orb_false_iff in Hrule as [Hrule ?]).
  unfold clean_name_of. cbv zeta. cbn [isna str orb]. fold header_lower.
  apply String.eqb_neq in Hnb. rewrite Hnb, Hrule, Hyear.
  repeat match goal with H : _ = false |- _ => rewrite H; clear H end.
  split; [by intros -> | by intros -> ->].
Qed.

(** C9, as amended: a header that none of the earlier rules takes and
    whose normalised lower-cased text contains "2025" is named april_2025
    when it contains "april", and may_2025 when it contains "may" and not
    "april"; the name carries a counter only if it is already used in the
    row. *)
Theorem month_year_names (used : gset string) (i : nat) (text : string) :
  let header_lower := lower (normalize_header (Value text)) in
  earlier_rule header_lower = false ->
  contains "2025" header_lower = true ->
  forall token,
    (token = "april_2025" /\ contains "april" header_lower = true)
    \/ (token = "may_2025" /\ contains "april" header_lower = false
                           /\ contains "may" header_lower = true) ->
    exists name,
      final_name_of used i (Value text) = Ok name
      /\ (token ∉ used -> name = token)
      /\ (name = token \/ exists k, 1 <= k /\ name = suffixed token k).
Proof.
  intros header_lower Hrule Hyear token Htoken.
  destruct (clean_name_of_month used i text Hrule Hyear) as [Hapril Hmay].
  fold header_lower in Hapril, Hmay.
  assert (clean_name_of used i (Value text) = token /\ lower token = token) as [Hclean Hlow].
  { destruct Htoken as [[-> Ha] | (-> & Ha & Hm)]; auto. }
  destruct (final_name_of_spec used i (Value text)) as (name & Hrun & _ & Hfree & Hshape).
  rewrite Hclean, Hlow in Hfree, Hshape.
  exists name. split; [exact Hrun|]. split; [exact Hfree|].
  destruct Hshape as [-> | (k & Hk & ->)]; [by left|]. right. exists k. split; [lia | done].
Qed.

Lemma month_year_names_witness :
  final_name_of ∅ 4 (Value "Forecast April 2025") = Ok "april_2025".
Proof.
  destruct (month_year_names ∅ 4 "Forecast April 2025" eq_refl eq_refl "april_2025"
              (or_introl (conj eq_refl eq_refl))) as (name & Hrun & Hfree & _).
  rewrite Hrun. f_equal. apply Hfree. apply not_elem_of_empty.
Defined.

(** A month without a rule: the general cleaning keeps all the text. *)
Example month_without_rule :
  careful_headers [Value "Forecast June 2025"] = Ok ["forecast_june_2025"].
Proof. reflexivity. Qed.

(** C9 as stated fails: a header with another month keeps the rest of
    its text, and a header with "April" and "2025" that an earlier rule
    takes is not named after the month. *)
Lemma month_year_names_not_general :
  ~ (forall (text month year : string),
       month ∈ month_names ->
       contains month (lower (normalize_header (Value text))) = true ->
       contains year (lower (normalize_header (Value text))) = true ->
       careful_headers [Value text] = Ok [month +:+ "_" +:+ year]).
Proof.
  intros H.
  specialize (H "Total April 2025" "april" "2025").
  assert ("april" ∈ month_names) as Hm by (unfold month_names; do 3 right; left).
  specialize (H Hm eq_refl eq_refl). vm_compute in H. discriminate.
Qed.

(** *** Boundary detection *)

Lemma iloc_lt (df : DataFrame) (i : nat) :
  i < len df -> iloc df i = Ok (row_at df i).
Proof.
  unfold iloc, row_at, len. intros Hi.
  destruct (lookup_lt_is_Some_2 (rows df) i Hi) as [row ->]. done.
Qed.

(** A row index of a scan is the current one, settled in the context, or
    a later one, settled by [H]. *)
Ltac here_or_later j a H :=
  destruct (decide (j = a)) as [->|]; [done | apply H; lia].

Lemma header_scan_spec (df : DataFrame) :
  forall n a, a + n <= len df ->
    (exists i, header_scan df (seq a n) = Ok (Some i)
               /\ (a <= i /\ i < a + n) /\ 4 <= score_at df i
               /\ forall j, a <= j -> j < i -> score_at df j < 4)
    \/ (header_scan df (seq a n) = Ok None
        /\ forall j, a <= j -> j < a + n -> score_at df j < 4).
Proof.
  induction n as [|n IH]; intros a Hlen; cbn [seq header_scan].
  - right. split; [done | lia].
  - rewrite iloc_lt by lia. cbn [mbind result_bind]. fold (score_at df a).
    destruct (Nat.leb_spec 4 (score_at df a)) as [Hs|Hs].
    + left. exists a. split; [done|]. split; [lia|]. split; [done | lia].
    + destruct (IH (S a) ltac:(lia)) as [(i & Hrun & Hi & Hsc & Hbefore) | [Hrun Hnone]].
      * left. exists i. split; [exact Hrun|]. split; [lia|]. split; [done|].
        intros j Hj1 Hj2. here_or_later j a Hbefore.
      * right. split; [exact Hrun|].
        intros j Hj1 Hj2. here_or_later j a Hnone.
Qed.

Lemma Qgtb_true (x y : Q) : Qgtb x y = true <-> (y < x)%Q.
Proof.
  unfold Qgtb. rewrite negb_true_iff, <- not_true_iff_false, Qle_bool_iff.
  split; [apply Qnot_le_lt | apply Qlt_not_le].
Qed.

Lemma Qgtb_false (x y : Q) : Qgtb x y = false <-> (x <= y)%Q.
Proof.
  unfold Qgtb. rewrite negb_false_iff, Qle_bool_iff. done.
Qed.

Lemma density_scan_spec (df : DataFrame) :
  0 < ncols df ->
  forall n a m hr, a + n <= len df -> density_inv df a m hr ->
    exists m' hr',
      density_scan df (seq a n) m hr = Ok (m', hr')
      /\ density_inv df (a + n) m' hr'.
Proof.
  intros Hcols. induction n as [|n IH]; intros a m hr Hlen Hinv; cbn [seq density_scan].
  - exists m, hr. by rewrite Nat.add_0_r.
  - rewrite iloc_lt by lia. cbn [mbind result_bind].
    unfold true_div. destruct (Nat.eqb_spec (ncols df) 0) as [|_]; [lia|].
    cbn [mbind result_bind]. fold (density df a).
    replace (a + S n) with (S a + n) by lia.
    destruct (Qgtb (density df a) m && Qgtb (density df a) (3 # 10)) eqn:Hcmp.
    + apply andb_true_iff in Hcmp as [Hm%Qgtb_true H3%Qgtb_true].
      apply IH; [lia|]. cbn. split; [lia|]. split; [done|]. split; [done|].
      assert (forall j, j < a -> (density df j < density df a)%Q) as Hbelow.
      { intros j Hj. destruct hr as [h|]; cbn in Hinv.
        - destruct Hinv as (_ & -> & _ & Hmax & _).
          eapply Qle_lt_trans; [by apply Hmax | done].
        - destruct Hinv as [_ Hlow]. eapply Qle_lt_trans; [by apply Hlow | done]. }
      split; [|exact Hbelow].
      intros j Hj. destruct (decide (j = a)) as [->|]; [apply Qle_refl|].
      apply Qlt_le_weak, Hbelow. lia.
    + apply IH; [lia|]. apply andb_false_iff in Hcmp.
      destruct hr as [h|]; cbn in Hinv |- *.
      * destruct Hinv as (Hh & -> & Hd & Hmax & Hfirst).
        split; [lia|]. split; [done|]. split; [done|]. split; [|done].
        intros j Hj. destruct (decide (j = a)) as [->|]; [|apply Hmax; lia].
        destruct Hcmp as [Hc%Qgtb_false | Hc%Qgtb_false]; [done|].
        eapply Qle_trans; [exact Hc | by apply Qlt_le_weak].
      * destruct Hinv as [-> Hlow]. split; [done|].
        intros j Hj. destruct (decide (j = a)) as [->|]; [|apply Hlow; lia].
        destruct Hcmp as [Hc%Qgtb_false | Hc%Qgtb_false]; [|done].
        eapply Qle_trans; [exact Hc | done].
Qed.

Lemma instruction_scan_spec (df : DataFrame) :
  forall n a, (n <> 0 -> a + n <= len df) ->
    exists k,
      k <= n
      /\ instruction_scan df (seq a n) a = Ok (a + k)
      /\ (forall j, a <= j -> j < a + k -> is_instruction_row df j = true)
      /\ (k < n -> is_instruction_row df (a + k) = false).
Proof.
  induction n as [|n IH]; intros a Hlen; cbn [seq instruction_scan].
  - exists 0. rewrite Nat.add_0_r. split; [done|]. split; [done|]. split; lia.
  - rewrite iloc_lt by lia. cbn [mbind result_bind]. fold (is_instruction_row df a).
    destruct (is_instruction_row df a) eqn:Hinstr.
    + rewrite Nat.add_1_r.
      destruct (IH (S a) ltac:(lia)) as (k & Hk & Hrun & Hskip & Hstop).
      exists (S k). replace (a + S k) with (S a + k) by lia.
      split; [lia|]. split; [exact Hrun|]. split.
      * intros j Hj1 Hj2. here_or_later j a Hskip.
      * intros Hlt. apply Hstop. lia.
    + exists 0. rewrite Nat.add_0_r. split; [lia|]. split; [done|]. split; [lia | done].
Qed.

Lemma range_0 (n : nat) : range 0 n = seq 0 n.
Proof. unfold range. by rewrite Nat.sub_0_r. Qed.

Lemma data_start_scan (df : DataFrame) (h : nat) :
  exists d,
    instruction_scan df (range (h + 1) (min (h + 1 + 10) (len df))) (h + 1) = Ok d
    /\ data_start_spec df h d.
Proof.
  unfold range. set (n := min (h + 1 + 10) (len df) - (h + 1)).
  destruct (instruction_scan_spec df n (h + 1)) as (k & Hk & Hrun & Hskip & Hstop);
    [lia|].
  exists (h + 1 + k). split; [exact Hrun|]. exists k.
  split; [done|]. split; [lia|]. split.
  - intros j Hj1 Hj2. split; [lia | by apply Hskip].
  - intros Hk10 Hd. apply Hstop. lia.
Qed.

Lemma header_row_fallback (df : DataFrame) :
  0 < ncols df ->
  (forall i, ~ qualifies df i) ->
  exists m hr,
    density_scan df (range 0 (min 15 (len df))) 0%Q None = Ok (m, hr)
    /\ header_row_spec df (default 8 hr).
Proof.
  intros Hcols Hnone. rewrite range_0.
  destruct (density_scan_spec df Hcols (min 15 (len df)) 0 0%Q None) as (m & hr & Hrun & Hinv);
    [lia | split; [done | lia] |].
  exists m, hr. split; [exact Hrun|]. cbn [Nat.add] in Hinv.
  destruct hr as [h|]; cbn in Hinv |- *.
  - destruct Hinv as (Hh & _ & Hd & Hmax & Hfirst). right. left. by repeat split.
  - destruct Hinv as [_ Hlow]. right. right. split; [done|]. split; [|done].
    intros i [Hi Hd]. apply (Qlt_not_le _ _ Hd). by apply Hlow.
Qed.

(** C1, as amended: on a sheet that has a column whenever it has a
    row, [find_data_boundaries] returns a pair. Its header row is the
    earliest of the first 25 rows with at least 4 of the 8 indicator hits;
    if there is none, the earliest row of highest density among the first
    15, provided that density exceeds 0.3; otherwise 8. Its data start
    follows the header row and the instruction rows skipped after it, at
    most 10: it is the first row that is not an instruction row, or where
    the scan ends. *)
Theorem boundary_detection (df : DataFrame) :
  has_columns df ->
  exists h d,
    find_data_boundaries df = Ok (h, d)
    /\ header_row_spec df h
    /\ data_start_spec df h d.
Proof.
  intros [Hcols | Hempty].
  - unfold find_data_boundaries. rewrite (range_0 (min 25 (len df))).
    destruct (header_scan_spec df (min 25 (len df)) 0 ltac:(lia))
      as [(i & Hrun & Hi & Hsc & Hbefore) | [Hrun Hnone]];
      rewrite Hrun; cbn [mbind result_bind].
    + destruct (data_start_scan df i) as (d & Hd & Hspec).
      exists i, d. rewrite Hd. split; [done|]. split; [|done].
      left. split; [split; [lia | done]|].
      intros j Hj [_ Hq]. specialize (Hbefore j ltac:(lia) Hj). lia.
    + assert (forall i, ~ qualifies df i) as Hnq.
      { intros i [Hi Hq]. specialize (Hnone i ltac:(lia) ltac:(lia)). lia. }
      destruct (header_row_fallback df Hcols Hnq) as (m & hr & Hscan & Hspec).
      rewrite Hscan. cbn [mbind result_bind snd].
      assert (match hr with Some i => Ok i | None => Ok 8 end = Ok (default 8 hr)) as ->
        by (by destruct hr).
      cbn [mbind result_bind].
      destruct (data_start_scan df (default 8 hr)) as (d & Hd & Hdspec).
      exists (default 8 hr), d. by rewrite Hd.
  - exists 8, 9. destruct df as [c rs]. cbn in Hempty. subst rs.
    split; [reflexivity|]. split.
    + right. right. split; [|split; [|done]]; intros i [Hi _]; cbn in Hi; lia.
    + exists 0. split; [done|]. split; [lia|]. split; [lia|]. cbn. lia.
Qed.

Lemma boundary_detection_witness :
  find_data_boundaries
    {| ncols := 2;
       rows := [ [Value "Investment plan"; NaN];
                 [Value "Company"; Value "Region / Plant / Budget"];
                 [Value "Mandatory"; Value "Optional"];
                 [Value "ACME"; Value "EMEA"] ] |}
  = Ok (1, 3).
Proof.
  destruct (boundary_detection
              {| ncols := 2;
                 rows := [ [Value "Investment plan"; NaN];
                           [Value "Company"; Value "Region / Plant / Budget"];
                           [Value "Mandatory"; Value "Optional"];
                           [Value "ACME"; Value "EMEA"] ] |})
    as (h & d & Hrun & _ & _); [left; cbn; lia|].
  rewrite Hrun. vm_compute in Hrun. exact (eq_sym Hrun).
Defined.

(** C1 as stated fails: on a sheet with a row and no column the
    density is a division by zero. *)
Lemma boundary_detection_raises_without_columns :
  find_data_boundaries {| ncols := 0; rows := [[]] |} = Raise ZeroDivisionError.
Proof. reflexivity. Qed.

End IngestFacts.

(** ** The shells around the query engine *)

Module ShellFacts.
Import Py PyFacts Chatbot Shell.

#[local] Arguments String.append : simpl nomatch.

(** Membership in a list written out: try each place in turn. *)
Ltac pick_template :=
  solve [ repeat first [ apply list_elem_of_here | apply list_elem_of_further ] ].

Lemma sql_in_templates (self : InvestmentDataChatbot) (q : string) :
  _natural_language_to_sql self q ∈ sql_templates self.
Proof.
  unfold _natural_language_to_sql, _generate_count_query, _generate_sum_query,
    _generate_avg_query, _generate_select_query, _generate_max_query,
    _generate_min_query, _generate_general_query, sql_templates.
  cbv zeta. set (t := Py.strip (Py.lower q)).
  destruct (budget_columns self) as [|c cols];
    repeat (match goal with
            | |- context [if ?b then _ else _] =>
                lazymatch b with
                | context [if _ then _ else _] => fail
                | _ => destruct b
                end
            end);
    pick_template.
Qed.

(** *** Strings under [lower] and [strip] *)

Lemma lower_char_idem (c : ascii) : lower_char (lower_char c) = lower_char c.
Proof. by destruct c as [[] [] [] [] [] [] [] []]. Qed.

Lemma is_space_lower_char (c : ascii) : is_space (lower_char c) = is_space c.
Proof. by destruct c as [[] [] [] [] [] [] [] []]. Qed.

Lemma lower_idem (s : string) : lower (lower s) = lower s.
Proof. induction s as [|c s IH]; cbn; [done|]. by rewrite lower_char_idem, IH. Qed.

Lemma lstrip_lower (s : string) : lstrip (lower s) = lower (lstrip s).
Proof.
  induction s as [|c s IH]; cbn; [done|].
  rewrite is_space_lower_char. by destruct (is_space c).
Qed.

Lemma rstrip_lower (s : string) : rstrip (lower s) = lower (rstrip s).
Proof.
  induction s as [|c s IH]; cbn [lower rstrip]; [done|].
  rewrite IH, is_space_lower_char.
  destruct (rstrip s); cbn [lower]; by destruct (is_space c).
Qed.

Lemma strip_lower (s : string) : strip (lower s) = lower (strip s).
Proof. unfold strip. by rewrite lstrip_lower, rstrip_lower. Qed.

Lemma rstrip_idem (s : string) : rstrip (rstrip s) = rstrip s.
Proof.
  induction s as [|c s IH]; [done|]. cbn [rstrip].
  destruct (rstrip s) as [|x r] eqn:Hr.
  - destruct (is_space c) eqn:Hc; [done|]. cbn. by rewrite Hc.
  - rewrite rstrip_cons by (by rewrite IH). by rewrite IH.
Qed.

(** What [lstrip] leaves starts with a non-space. *)
Lemma lstrip_head (s : string) :
  match lstrip s with
  | EmptyString => True
  | String c _ => is_space c = false
  end.
Proof.
  induction s as [|c s IH]; [done|]. cbn [lstrip].
  by destruct (is_space c) eqn:Hc.
Qed.

Lemma rstrip_head (c : ascii) (s : string) :
  is_space c = false -> exists r, rstrip (String c s) = String c r.
Proof.
  intros Hc. cbn [rstrip]. destruct (rstrip s); [rewrite Hc|]; by eexists.
Qed.

Lemma lstrip_strip (s : string) : lstrip (strip s) = strip s.
Proof.
  unfold strip. pose proof (lstrip_head s) as Hh.
  destruct (lstrip s) as [|c t]; [done|].
  destruct (rstrip_head c t Hh) as [r ->]. cbn [lstrip]. by rewrite Hh.
Qed.

Lemma strip_idem (s : string) : strip (strip s) = strip s.
Proof.
  unfold strip at 1. rewrite lstrip_strip. unfold strip. apply rstrip_idem.
Qed.

(** Substrings of substrings. *)
Lemma contains_trans (a b s : string) :
  contains a b = true -> contains b s = true -> contains a s = true.
Proof.
  rewrite !contains_spec. intros (x & y & ->) (u & v & ->).
  exists (u +:+ x), (y +:+ v). by rewrite !app_assoc_s.
Qed.

(** *** The generated statements *)

Lemma templates_are_selects (self : InvestmentDataChatbot) :
  Forall (fun sql => starts_with "SELECT " sql = true) (sql_templates self).
Proof.
  unfold sql_templates. cbv zeta. apply Forall_app. split.
  - repeat constructor.
  - destruct (budget_columns self); repeat constructor.
Qed.

(** X1: whatever the question, the generated statement is one of the
    fixed templates of the chatbot, built from the table name and the first
    budget-like column only: no text of the question reaches the SQL. *)
Theorem generated_sql_is_a_template (self : InvestmentDataChatbot) (q : string) :
  _natural_language_to_sql self q ∈ sql_templates self
  /\ length (sql_templates self) <= 21.
Proof.
  split; [apply sql_in_templates|].
  unfold sql_templates. cbv zeta. rewrite length_app.
  destruct (budget_columns self); cbn; lia.
Qed.

(** X2: every generated statement is a SELECT. *)
Theorem generated_sql_is_a_select (self : InvestmentDataChatbot) (q : string) :
  starts_with "SELECT " (_natural_language_to_sql self q) = true.
Proof.
  pose proof (templates_are_selects self) as Hall.
  rewrite Forall_forall in Hall. apply Hall, sql_in_templates.
Qed.

(** X3: the statement depends on the question only through its
    lower-cased, stripped text: letter case and surrounding whitespace
    change nothing. *)
Theorem sql_ignores_case_and_margins (self : InvestmentDataChatbot) (q q' : string) :
  lower (strip q) = lower (strip q') ->
  _natural_language_to_sql self q = _natural_language_to_sql self q'.
Proof.
  intros H. rewrite !ChatbotFacts.dispatch_is_first_match.
  unfold classify, normalized. by rewrite !strip_lower, H.
Qed.

Lemma sql_ignores_case_and_margins_witness :
  _natural_language_to_sql (sample_bot ["company"]) "  COUNT Projects BY Company  "
  = _natural_language_to_sql (sample_bot ["company"]) "count projects by company".
Proof.
  apply (sql_ignores_case_and_margins (sample_bot ["company"])
           "  COUNT Projects BY Company  " "count projects by company").
  reflexivity.
Defined.

(** X4: a question whose text mentions "budget" never gets the MAX,
    MIN or generic intent: "budget" contains the list-group keyword "get",
    so such a question is answered by the COUNT, SUM, AVG or SELECT
    templates. *)
Theorem budget_questions_stop_at_select (self : InvestmentDataChatbot) (q : string) :
  contains "budget" (normalized q) = true ->
  (classify q = COUNT \/ classify q = SUM \/ classify q = AVG \/ classify q = SELECT)
  /\ (classify q = SELECT ->
      _natural_language_to_sql self q = _generate_select_query self (normalized q)).
Proof.
  intros Hb.
  assert (contains "get" (normalized q) = true) as Hget.
  { by apply (contains_trans "get" "budget"). }
  split.
  - unfold classify, keyword_groups. cbn [first_matching_group].
    repeat (match goal with
            | |- context [any_in ?ws ?t] =>
                lazymatch ws with
                | context ["get"] => fail
                | _ => destruct (any_in ws t); [by auto|]
                end
            end).
    cbn [any_in existsb]. rewrite Hget, !orb_true_r. by auto.
  - intros Hc. by rewrite ChatbotFacts.dispatch_is_first_match, Hc.
Qed.

Lemma budget_questions_stop_at_select_witness :
  classify "Show the project with maximum budget" = SELECT
  /\ _natural_language_to_sql (sample_bot ["company"; "budget_5"])
       "What is the minimum budget?"
     = "SELECT * FROM investment_projects LIMIT 10".
Proof.
  split; [reflexivity|].
  destruct (budget_questions_stop_at_select (sample_bot ["company"; "budget_5"])
              "What is the minimum budget?" eq_refl) as [_ Hsel].
  rewrite Hsel by reflexivity. reflexivity.
Defined.

Lemma budget_columns_first (self : InvestmentDataChatbot) (pre post : list string) (c : string) :
  map fst (schema self) = pre ++ c :: post ->
  Forall (fun k => budget_like k = false) pre ->
  budget_like c = true ->
  exists cols, budget_columns self = c :: cols.
Proof.
  unfold budget_columns, budget_like. intros -> Hpre Hc.
  induction pre as [|k pre IH]; cbn [app].
  - rewrite filter_cons_True by done. by eexists.
  - apply Forall_cons in Hpre as [Hk Hpre].
    rewrite filter_cons_False by (by rewrite Hk). by apply IH.
Qed.

(** X5: the aggregates work on the first budget-like column in schema
    order, whatever budget-like columns follow it: the MAX and MIN
    statements, and the ungrouped SUM and AVG statements, name that column. *)
Theorem aggregates_use_first_budget_like_column
    (self : InvestmentDataChatbot) (pre post : list string) (c q : string) :
  map fst (schema self) = pre ++ c :: post ->
  Forall (fun k => budget_like k = false) pre ->
  budget_like c = true ->
  let t := normalized q in
  (classify q = MAX ->
   _natural_language_to_sql self q
   = "SELECT *, MAX(CAST(" +:+ c +:+ " AS REAL)) as max_value FROM " +:+ table_name self)
  /\ (classify q = MIN ->
      _natural_language_to_sql self q
      = "SELECT *, MIN(CAST(" +:+ c +:+ " AS REAL)) as min_value FROM " +:+ table_name self
        +:+ " WHERE CAST(" +:+ c +:+ " AS REAL) > 0")
  /\ (classify q = SUM -> contains "by company" t = false -> contains "by region" t = false ->
      _natural_language_to_sql self q
      = "SELECT SUM(CAST(" +:+ c +:+ " AS REAL)) as total FROM " +:+ table_name self)
  /\ (classify q = AVG -> contains "by company" t = false -> contains "by region" t = false ->
      _natural_language_to_sql self q
      = "SELECT AVG(CAST(" +:+ c +:+ " AS REAL)) as average FROM " +:+ table_name self).
Proof.
  intros Hkeys Hpre Hc t.
  destruct (budget_columns_first self pre post c Hkeys Hpre Hc) as [cols Hcols].
  rewrite ChatbotFacts.dispatch_is_first_match. fold t.
  repeat split.
  - intros ->. cbn [generate]. unfold _generate_max_query. by rewrite Hcols.
  - intros ->. cbn [generate]. unfold _generate_min_query. by rewrite Hcols.
  - intros -> H1 H2. cbn [generate]. unfold _generate_sum_query. by rewrite Hcols, H1, H2.
  - intros -> H1 H2. cbn [generate]. unfold _generate_avg_query. by rewrite Hcols, H1, H2.
Qed.

Lemma aggregates_use_first_budget_like_column_witness :
  _natural_language_to_sql
    (sample_bot ["id"; "company"; "budget_7"; "total_value"; "created_at"])
    "Which project is the largest?"
  = "SELECT *, MAX(CAST(budget_7 AS REAL)) as max_value FROM investment_projects".
Proof.
  apply (aggregates_use_first_budget_like_column
           (sample_bot ["id"; "company"; "budget_7"; "total_value"; "created_at"])
           ["id"; "company"] ["total_value"; "created_at"] "budget_7"
           "Which project is the largest?" eq_refl).
  - by repeat constructor.
  - reflexivity.
  - reflexivity.
Defined.

(** *** The schema read at start-up *)

Lemma dict_set_keys (key value : string) (d : list (string * string)) :
  map fst (dict_set key value d)
  = if bool_decide (key ∈ map fst d) then map fst d else map fst d ++ [key].
Proof.
  induction d as [|[k v] d IH]; [done|]. cbn [dict_set map fst].
  destruct (String.eqb_spec k key) as [->|Hne].
  - rewrite bool_decide_eq_true_2 by left. done.
  - cbn [map fst]. rewrite IH.
    destruct (bool_decide (key ∈ map fst d)) eqn:Hin.
    + apply bool_decide_eq_true in Hin.
      rewrite bool_decide_eq_true_2 by (by right). done.
    + apply bool_decide_eq_false in Hin.
      rewrite bool_decide_eq_false_2; [done|].
      intros [?|?]%elem_of_cons; [congruence | done].
Qed.

Lemma dict_get_set_eq (key value : string) (d : list (string * string)) :
  dict_get key (dict_set key value d) = Some value.
Proof.
  induction d as [|[k v] d IH]; cbn [dict_set dict_get].
  - by rewrite String.eqb_refl.
  - destruct (String.eqb_spec k key) as [->|Hne]; cbn [dict_get].
    + by rewrite String.eqb_refl.
    + apply String.eqb_neq in Hne. by rewrite Hne.
Qed.

Lemma dict_get_set_ne (key key' value : string) (d : list (string * string)) :
  key' <> key -> dict_get key' (dict_set key value d) = dict_get key' d.
Proof.
  intros Hne.
  assert (String.eqb key key' = false) as Hb by (apply String.eqb_neq; congruence).
  induction d as [|[k v] d IH]; cbn [dict_set dict_get].
  - by rewrite Hb.
  - destruct (String.eqb_spec k key) as [->|Hk]; cbn [dict_get].
    + by rewrite Hb.
    + by rewrite IH.
Qed.

(** The loop that fills the schema, from any dict. *)
Definition fill_schema (acc : list (string * string)) (columns : list column_info)
  : list (string * string) :=
  foldl (fun schema col => dict_set (lower (ci_name col)) (ci_type col) schema) acc columns.

Lemma fill_schema_keys (columns : list column_info) :
  forall acc, NoDup (map fst acc) ->
    NoDup (map fst (fill_schema acc columns))
    /\ forall k, k ∈ map fst (fill_schema acc columns)
                 <-> k ∈ map fst acc
                     \/ exists col, col ∈ columns /\ lower (ci_name col) = k.
Proof.
  induction columns as [|col columns IH]; intros acc Hnd; cbn [fill_schema foldl].
  - split; [done|]. intros k. split; [by left|].
    intros [?|(col & Hcol & _)]; [done | by apply elem_of_nil in Hcol].
  - fold (fill_schema (dict_set (lower (ci_name col)) (ci_type col) acc) columns).
    assert (NoDup (map fst (dict_set (lower (ci_name col)) (ci_type col) acc))) as Hnd'.
    { rewrite dict_set_keys. case_bool_decide as Hin; [done|].
      apply NoDup_app. split; [done|]. split; [|apply NoDup_singleton].
      intros x Hx ->%list_elem_of_singleton. done. }
    destruct (IH _ Hnd') as [Hout Hmem]. split; [done|].
    intros k. rewrite Hmem, dict_set_keys. split.
    + intros [Hk | (c & Hc & <-)].
      * case_bool_decide; [by left|].
        apply elem_of_app in Hk as [?|Hk]; [by left|].
        apply list_elem_of_singleton in Hk as ->.
        right. exists col. split; [left | done].
      * right. exists c. split; [by right | done].
    + intros [Hk | (c & Hc & <-)].
      * left. case_bool_decide; [done|]. apply elem_of_app. by left.
      * apply elem_of_cons in Hc as [->|Hc].
        -- left. case_bool_decide; [done|]. apply elem_of_app. right. left.
        -- right. by exists c.
Qed.

Lemma fill_schema_get_last (pre post : list column_info) (col : column_info) :
  forall acc,
    Forall (fun c => lower (ci_name c) <> lower (ci_name col)) post ->
    dict_get (lower (ci_name col)) (fill_schema acc (pre ++ col :: post))
    = Some (ci_type col).
Proof.
  intros acc Hpost. unfold fill_schema. rewrite foldl_app. cbn [foldl].
  set (d := dict_set _ _ _).
  assert (dict_get (lower (ci_name col)) d = Some (ci_type col)) as Hd
    by apply dict_get_set_eq.
  clearbody d. revert d Hd.
  induction post as [|c post IH]; intros d Hd; cbn [foldl]; [done|].
  apply Forall_cons in Hpost as [Hc Hpost]. apply IH; [done|].
  rewrite dict_get_set_ne by congruence. done.
Qed.

Lemma fill_schema_lower_keys (columns : list column_info) :
  forall acc, Forall (fun k => lower k = k) (map fst acc) ->
    Forall (fun k => lower k = k) (map fst (fill_schema acc columns)).
Proof.
  induction columns as [|col columns IH]; intros acc Hacc; cbn [fill_schema foldl]; [done|].
  apply IH. rewrite dict_set_keys. case_bool_decide; [done|].
  apply Forall_app. split; [done|]. constructor; [apply lower_idem | constructor].
Qed.

(** X6: the schema read at start-up has one key for each lower-cased
    column name of the table and no other, each once and in lower case; the
    type kept for a name is that of the last column bearing it. When the
    PRAGMA statement fails the schema is empty. *)
Theorem schema_of_table
    (table_info : string -> string -> pragma_outcome) (db : string) :
  let self := __init__ table_info db in
  (forall columns,
     table_info db "investment_projects" = Columns columns ->
     NoDup (map fst (schema self))
     /\ Forall (fun k => lower k = k) (map fst (schema self))
     /\ (forall k, k ∈ map fst (schema self)
                   <-> exists col, col ∈ columns /\ lower (ci_name col) = k)
     /\ (forall pre col post,
           columns = pre ++ col :: post ->
           Forall (fun c => lower (ci_name c) <> lower (ci_name col)) post ->
           dict_get (lower (ci_name col)) (schema self) = Some (ci_type col)))
  /\ (forall e, table_info db "investment_projects" = PragmaFailed e ->
                schema self = []).
Proof.
  intros self. subst self. unfold __init__, _get_table_schema. cbn [schema]. split.
  - intros columns ->. fold (fill_schema [] columns).
    destruct (fill_schema_keys columns [] NoDup_nil_2) as [Hnd Hmem].
    split; [done|]. split; [by apply fill_schema_lower_keys|]. split.
    + intros k. rewrite Hmem. split; [|by right].
      intros [Hk | ?]; [by apply elem_of_nil in Hk | done].
    + intros pre col post -> Hpost. by apply fill_schema_get_last.
  - by intros e ->.
Qed.

Lemma schema_of_table_witness :
  schema (__init__ (fun _ _ => Columns [ {| ci_name := "id"; ci_type := "INTEGER" |};
                                         {| ci_name := "Company"; ci_type := "TEXT" |} ])
                   "investment_data_careful.db")
  = [("id", "INTEGER"); ("company", "TEXT")]
  /\ dict_get "company"
       (schema (__init__ (fun _ _ => Columns [ {| ci_name := "id"; ci_type := "INTEGER" |};
                                               {| ci_name := "Company"; ci_type := "TEXT" |} ])
                         "investment_data_careful.db"))
     = Some "TEXT".
Proof.
  split; [reflexivity|].
  destruct (proj1 (schema_of_table
                     (fun _ _ => Columns [ {| ci_name := "id"; ci_type := "INTEGER" |};
                                           {| ci_name := "Company"; ci_type := "TEXT" |} ])
                     "investment_data_careful.db") _ eq_refl) as (_ & _ & _ & Hget).
  apply (Hget [ {| ci_name := "id"; ci_type := "INTEGER" |} ]
              {| ci_name := "Company"; ci_type := "TEXT" |} []); [reflexivity | constructor].
Defined.

(** *** The interactive loop *)

Lemma interactive_mode_quit (line : string) (inputs : list string) :
  quit_word line -> interactive_mode (line :: inputs) = ([SayGoodbye], Quit).
Proof. intros Hq. cbn [interactive_mode]. by rewrite bool_decide_eq_true_2. Qed.

Lemma interactive_mode_step (line : string) (inputs : list string) :
  ~ quit_word line ->
  interactive_mode (line :: inputs)
  = (turn (strip line) :: fst (interactive_mode inputs), snd (interactive_mode inputs)).
Proof.
  intros Hq. cbn [interactive_mode]. by rewrite bool_decide_eq_false_2.
Qed.

Lemma turn_asks (question q : string) :
  turn question = AskQuestion q ->
  q = question /\ q <> "" /\ lower q <> "help" /\ lower q <> "columns".
Proof.
  unfold turn.
  destruct (String.eqb_spec (lower question) "help") as [|Hh]; [done|].
  destruct (String.eqb_spec (lower question) "columns") as [|Hc]; [done|].
  destruct (non_empty question) eqn:Hne; [|done].
  intros [= <-]. apply IngestFacts.non_empty_true in Hne. done.
Qed.

(** X7: the loop passes to [ask_question] only stripped, non-empty
    lines that were typed, and never one of the reserved words quit, exit,
    bye, help or columns, in any letter case. *)
Theorem reserved_words_are_never_asked (inputs : list string) (q : string) :
  AskQuestion q ∈ fst (interactive_mode inputs) ->
  (exists line, line ∈ inputs /\ q = strip line)
  /\ q <> "" /\ strip q = q
  /\ lower q ∉ ["quit"; "exit"; "bye"; "help"; "columns"].
Proof.
  induction inputs as [|line inputs IH]; [by intros ?%elem_of_nil|].
  destruct (decide (quit_word line)) as [Hq|Hq].
  - rewrite interactive_mode_quit by done. cbn [fst].
    intros [=]%list_elem_of_singleton.
  - rewrite interactive_mode_step by done. cbn [fst].
    intros [Hhere | Hlater]%elem_of_cons.
    + destruct (turn_asks _ q (eq_sym Hhere)) as (-> & Hne & Hh & Hc).
      split; [exists line; split; [left | done]|]. split; [done|].
      split; [apply strip_idem|].
      unfold quit_word in Hq. intros Hin. apply Hq.
      repeat (apply elem_of_cons in Hin as [Hin|Hin]; [first [ congruence | rewrite Hin; by repeat (first [left | right]) ]|]).
      by apply elem_of_nil in Hin.
    + destruct (IH Hlater) as ((l & Hl & ->) & Hrest).
      split; [exists l; split; [by right | done] | done].
Qed.

Lemma reserved_words_are_never_asked_witness :
  strip "Count projects by company" = "Count projects by company".
Proof.
  apply (reserved_words_are_never_asked
           ["  HELP "; "Count projects by company"; " Quit"; "never read"]).
  right. left.
Defined.

(** X8: the loop stops at the first quit word: with one typed, the
    session ends by the [break] and the lines after it change nothing;
    with none, every line gets one action and the session ends when the
    input does. *)
Theorem nothing_is_read_after_quit (pre post : list string) (line : string) :
  (quit_word line ->
   interactive_mode (pre ++ line :: post) = interactive_mode (pre ++ [line])
   /\ snd (interactive_mode (pre ++ line :: post)) = Quit)
  /\ (Forall (fun l => ~ quit_word l) pre ->
      snd (interactive_mode pre) = EndOfInput
      /\ length (fst (interactive_mode pre)) = length pre).
Proof.
  split.
  - intros Hq. induction pre as [|l pre [IH1 IH2]]; cbn [app].
    + by rewrite !interactive_mode_quit.
    + destruct (decide (quit_word l)) as [Hl|Hl].
      * by rewrite !interactive_mode_quit.
      * rewrite !interactive_mode_step by done. cbn [snd].
        split; [by rewrite IH1 | done].
  - induction pre as [|l pre IH]; intros Hall; [done|].
    apply Forall_cons in Hall as [Hl Hall].
    rewrite interactive_mode_step by done. cbn [fst snd length].
    destruct (IH Hall) as [-> ->]. done.
Qed.

Lemma nothing_is_read_after_quit_witness :
  interactive_mode ["help"; "How many projects are there?"; "EXIT"; "columns"]
  = ([ShowHelp; AskQuestion "How many projects are there?"; SayGoodbye], Quit).
Proof.
  exact (eq_trans
           (proj1 (proj1 (nothing_is_read_after_quit
                            ["help"; "How many projects are there?"] ["columns"] "EXIT")
                    ltac:(right; left)))
           eq_refl).
Defined.

End ShellFacts.

(** ** The ingestion run *)

Module PipelineFacts.
Import Py PyFacts Ingest IngestFacts Pipeline.

#[local] Arguments String.append : simpl nomatch.

(** *** Boundaries *)

(** What [find_data_boundaries] returns on a sheet with columns. *)
Lemma find_data_boundaries_spec (df : DataFrame) :
  has_columns df ->
  exists h d,
    find_data_boundaries df = Ok (h, d)
    /\ header_row_spec df h
    /\ data_start_spec df h d.
Proof.
  intros [Hcols | Hempty].
  - unfold find_data_boundaries. rewrite (range_0 (min 25 (len df))).
    destruct (header_scan_spec df (min 25 (len df)) 0 ltac:(lia))
      as [(i & Hrun & Hi & Hsc & Hbefore) | [Hrun Hnone]];
      rewrite Hrun; cbn [mbind result_bind].
    + destruct (data_start_scan df i) as (d & Hd & Hspec).
      exists i, d. rewrite Hd. split; [done|]. split; [|done].
      left. split; [split; [lia | done]|].
      intros j Hj [_ Hq]. specialize (Hbefore j ltac:(lia) Hj). lia.
    + assert (forall i, ~ qualifies df i) as Hnq.
      { intros i [Hi Hq]. specialize (Hnone i ltac:(lia) ltac:(lia)). lia. }
      destruct (header_row_fallback df Hcols Hnq) as (m & hr & Hscan & Hspec).
      rewrite Hscan. cbn [mbind result_bind snd].
      assert (match hr with Some i => Ok i | None => Ok 8 end = Ok (default 8 hr)) as ->
        by (by destruct hr).
      cbn [mbind result_bind].
      destruct (data_start_scan df (default 8 hr)) as (d & Hd & Hdspec).
      exists (default 8 hr), d. by rewrite Hd.
  - exists 8, 9. destruct df as [c rs]. cbn in Hempty. subst rs.
    split; [reflexivity|]. split.
    + right. right. split; [|split; [|done]]; intros i [Hi _]; cbn in Hi; lia.
    + exists 0. split; [done|]. split; [lia|]. split; [lia|]. cbn. lia.
Qed.

Lemma header_row_in_sheet (df : DataFrame) (h : nat) :
  header_row_spec df h -> h <= 24 /\ (h < len df \/ (h = 8 /\ len df <= 8)).
Proof.
  intros [[[Hh _] _] | [(_ & [Hh _] & _) | (_ & _ & ->)]]; lia.
Qed.

(** X9: on a sheet with columns the header row is one of the first 25
    rows; it is a row of the sheet unless it is the fallback row 8 of a
    sheet of at most 8 rows. The data start comes 1 to 11 rows after the
    header row, and no further than the row after the last one. *)
Theorem boundaries_are_bounded (df : DataFrame) :
  has_columns df ->
  exists h d,
    find_data_boundaries df = Ok (h, d)
    /\ h <= 24
    /\ (h < len df \/ (h = 8 /\ len df <= 8))
    /\ h + 1 <= d /\ d <= h + 11
    /\ d <= Nat.max (len df) (h + 1).
Proof.
  intros Hdf. destruct (find_data_boundaries_spec df Hdf) as (h & d & Hrun & Hh & Hd).
  exists h, d. split; [done|].
  destruct (header_row_in_sheet df h Hh) as [H24 Hin].
  destruct Hd as (k & -> & Hk & Hskip & _).
  repeat split; try done; try lia.
  destruct k as [|k]; [lia|].
  destruct (Hskip (h + 1 + k) ltac:(lia) ltac:(lia)) as [Hlt _]. lia.
Qed.

Lemma boundaries_are_bounded_witness :
  exists h d,
    find_data_boundaries {| ncols := 1; rows := [[Value "x"]; [NaN]] |} = Ok (h, d)
    /\ h <= 24 /\ d <= h + 11.
Proof.
  destruct (boundaries_are_bounded {| ncols := 1; rows := [[Value "x"]; [NaN]] |})
    as (h & d & Hrun & Hh & _ & _ & Hd & _); [left; cbn; lia|].
  by exists h, d.
Defined.

Lemma rectangular_no_columns (df : DataFrame) (i : nat) :
  rectangular df -> ncols df = 0 -> row_at df i = [].
Proof.
  unfold rectangular, row_at. intros Hrect Hc.
  destruct (rows df !! i) as [row|] eqn:Hrow; [|done]. cbn.
  rewrite Forall_forall in Hrect.
  specialize (Hrect row ltac:(by eapply list_elem_of_lookup_2)).
  apply nil_length_inv. lia.
Qed.

Lemma boundaries_without_columns (df : DataFrame) :
  rectangular df -> ncols df = 0 -> rows df <> [] ->
  find_data_boundaries df = Raise ZeroDivisionError.
Proof.
  intros Hrect Hc Hrows.
  assert (0 < len df) as Hlen.
  { unfold len. destruct (rows df); [done | cbn; lia]. }
  assert (forall i, score_at df i = 0) as Hscore.
  { intros i. unfold score_at. by rewrite rectangular_no_columns. }
  unfold find_data_boundaries. rewrite (range_0 (min 25 (len df))).
  destruct (header_scan_spec df (min 25 (len df)) 0 ltac:(lia))
    as [(i & _ & _ & Hsc & _) | [-> _]].
  { rewrite Hscore in Hsc. lia. }
  cbn [mbind result_bind]. rewrite range_0.
  destruct (min 15 (len df)) as [|n] eqn:Hmin; [lia|].
  cbn [seq density_scan]. rewrite iloc_lt by done.
  cbn [mbind result_bind]. unfold true_div. rewrite Hc. reflexivity.
Qed.

(** X10: on a rectangular sheet [find_data_boundaries] fails in one
    case only, a sheet with rows and no column, and then by the division by
    zero of the density; on any other sheet it returns a pair. *)
Theorem boundaries_fail_only_without_columns (df : DataFrame) :
  rectangular df ->
  (has_columns df /\ exists h d, find_data_boundaries df = Ok (h, d))
  \/ (ncols df = 0 /\ rows df <> []
      /\ find_data_boundaries df = Raise ZeroDivisionError).
Proof.
  intros Hrect.
  destruct (decide (ncols df = 0)) as [Hc|Hc].
  - destruct (rows df) as [|row rs] eqn:Hrows.
    + left. assert (has_columns df) as Hdf by (by right). split; [done|].
      destruct (find_data_boundaries_spec df Hdf) as (h & d & Hrun & _).
      by exists h, d.
    + right. split; [done|]. split; [done|].
      apply boundaries_without_columns; [done | done | by rewrite Hrows].
  - left. assert (has_columns df) as Hdf by (left; lia). split; [done|].
    destruct (find_data_boundaries_spec df Hdf) as (h & d & Hrun & _).
    by exists h, d.
Qed.

Lemma boundaries_fail_only_without_columns_witness :
  find_data_boundaries {| ncols := 0; rows := [[]; []] |} = Raise ZeroDivisionError.
Proof.
  destruct (boundaries_fail_only_without_columns {| ncols := 0; rows := [[]; []] |})
    as [[[Hc | Hr] _] | (_ & _ & Hrun)]; [by repeat constructor | ..].
  - cbn in Hc. lia.
  - discriminate Hr.
  - exact Hrun.
Defined.

(** *** Header names *)

(** The loop over the headers returns, with distinct names, and the
    check after it finds nothing to repair. *)
Lemma careful_headers_is_loop (headers : list cell) :
  exists names,
    headers_loop 0 headers ∅ [] = Ok names
    /\ careful_headers headers = Ok names
    /\ length names = length headers
    /\ NoDup names.
Proof.
  assert (NoDup (@nil string)) as Hnil by constructor.
  destruct (headers_loop_spec headers 0 ∅ [] ltac:(done) Hnil ltac:(done))
    as (out & Hloop & Hlen & Hnd & _).
  cbn in Hloop, Hnd. exists out. split; [done|]. split; [|done].
  unfold careful_headers. rewrite Hloop. cbn [mbind result_bind].
  rewrite decide_False; [done|].
  intros Hneq. apply Hneq. by rewrite size_list_to_set.
Qed.

(** X11: the names [create_careful_headers] returns are those its
    first loop built: the duplicate check after the loop never finds a
    duplicate, so the repair pass never runs. *)
Theorem repair_pass_never_runs (headers : list cell) :
  careful_headers headers = headers_loop 0 headers ∅ []
  /\ forall names, headers_loop 0 headers ∅ [] = Ok names ->
       length names = size (list_to_set names : gset string).
Proof.
  destruct (careful_headers_is_loop headers) as (names & Hloop & Hrun & _ & Hnd).
  split; [congruence|].
  intros names' Hn. rewrite Hloop in Hn. injection Hn as <-.
  by rewrite size_list_to_set.
Qed.

Lemma repair_pass_never_runs_witness :
  careful_headers [Value "Total"; Value "total"; Value "Budget_0"]
  = Ok ["budget_0"; "budget_1"; "budget_2"].
Proof.
  rewrite (proj1 (repair_pass_never_runs [Value "Total"; Value "total"; Value "Budget_0"])).
  reflexivity.
Defined.

Lemma str_nat_digits (i : nat) (c : ascii) :
  (forall d, In d ["0"; "1"; "2"; "3"; "4"; "5"; "6"; "7"; "8"; "9"]%char -> d <> c) ->
  absent c (str_nat i) = true.
Proof.
  intros Hc. unfold str_nat. induction (Nat.to_uint i) as [|u IH|u IH|u IH|u IH|u IH|u IH|u IH|u IH|u IH|u IH];
    cbn [NilEmpty.string_of_uint absent]; [done|..];
    rewrite IH, andb_true_r; apply negb_true_iff, Ascii.eqb_neq, Hc; cbn; tauto.
Qed.

Lemma lower_str_nat (i : nat) : lower (str_nat i) = str_nat i.
Proof.
  unfold str_nat. induction (Nat.to_uint i) as [|u IH|u IH|u IH|u IH|u IH|u IH|u IH|u IH|u IH|u IH];
    cbn [NilEmpty.string_of_uint lower]; [done|..]; by rewrite IH.
Qed.

Lemma lower_column_name (i : nat) : lower (column_name i) = column_name i.
Proof. unfold column_name. by rewrite lower_app, lower_str_nat. Qed.

Lemma column_name_inj (i j : nat) : column_name i = column_name j -> i = j.
Proof. unfold column_name. intros H%app_inv_head_s. by apply str_nat_inj. Qed.

Lemma unique_loop_free (fuel : nat) (used : gset string) (clean : string) (k : nat) :
  clean ∉ used -> unique_loop fuel used clean clean k = Ok clean.
Proof. intros Hfree. destruct fuel; cbn [unique_loop]; by rewrite decide_False. Qed.

Lemma blank_headers_loop (headers : list cell) :
  Forall (fun h => blank_header h = true) headers ->
  forall i used cleaned,
    (forall name, name ∈ used -> exists j, j < i /\ name = column_name j) ->
    headers_loop i headers used cleaned
    = Ok (cleaned ++ map column_name (seq i (length headers))).
Proof.
  induction 1 as [|header headers Hb _ IH]; intros i used cleaned Hused;
    cbn [headers_loop length seq map].
  - by rewrite app_nil_r.
  - assert (clean_name_of used i header = column_name i) as Hclean.
    { unfold clean_name_of. unfold blank_header in Hb. by rewrite Hb. }
    unfold final_name_of. rewrite Hclean, lower_column_name.
    rewrite unique_loop_free.
    + cbn [mbind result_bind]. rewrite IH.
      * by rewrite <- app_assoc.
      * intros name [->%elem_of_singleton | Hn]%elem_of_union.
        -- exists i. split; [lia | done].
        -- destruct (Hused name Hn) as (j & Hj & ->). exists j. split; [lia | done].
    + intros Hin. destruct (Hused _ Hin) as (j & Hj & Heq).
      apply column_name_inj in Heq. lia.
Qed.

(** X12: a header row of blank cells only (missing, empty or
    whitespace) is named column_0, column_1, ... in order. *)
Theorem blank_header_row_names (headers : list cell) :
  Forall (fun h => blank_header h = true) headers ->
  careful_headers headers = Ok (map column_name (seq 0 (length headers))).
Proof.
  intros Hb. destruct (careful_headers_is_loop headers) as (names & Hloop & -> & _).
  rewrite <- Hloop. rewrite (blank_headers_loop headers Hb 0 ∅ []); [done|].
  intros name Hn. by apply not_elem_of_empty in Hn.
Qed.

Lemma blank_header_row_names_witness :
  careful_headers [NaN; Value "  "; PyNone] = Ok ["column_0"; "column_1"; "column_2"].
Proof.
  apply (blank_header_row_names [NaN; Value "  "; PyNone]).
  by repeat constructor.
Defined.

(** *** Row extraction *)

Lemma filter_filter {A} (f : A -> bool) (l : list A) :
  List.filter f (List.filter f l) = List.filter f l.
Proof.
  induction l as [|x l IH]; cbn; [done|].
  destruct (f x) eqn:Hx; cbn; [|done]. by rewrite Hx, IH.
Qed.

Lemma filter_length_le {A} (f : A -> bool) (l : list A) :
  length (List.filter f l) <= length l.
Proof. induction l as [|x l IH]; cbn; [done|]. destruct (f x); cbn; lia. Qed.

(** X13: extracting the data rows of an extracted frame, from its
    first row, changes nothing. *)
Theorem extraction_is_idempotent (df : DataFrame) (data_start_row : nat) :
  extract_actual_data (extract_actual_data df data_start_row) 0
  = extract_actual_data df data_start_row.
Proof.
  pose proof (extract_actual_data_rows (extract_actual_data df data_start_row) 0) as H2.
  pose proof (extract_actual_data_rows df data_start_row) as H1.
  destruct (extract_actual_data (extract_actual_data df data_start_row) 0) as [c2 r2] eqn:E2.
  destruct (extract_actual_data df data_start_row) as [c1 r1] eqn:E1.
  assert (c2 = c1 /\ c1 = ncols df) as [-> ->].
  { apply (f_equal ncols) in E2. apply (f_equal ncols) in E1. cbn in E1, E2. by subst. }
  cbn in H1, H2. f_equal. rewrite H2, drop_0, H1. apply filter_filter.
Qed.

(** X14: the extraction keeps no row when the data start lies at or
    beyond the end of the sheet, or when the sheet has no column, and never
    more rows than the sheet has from the data start on. *)
Theorem extraction_edges (df : DataFrame) (data_start_row : nat) :
  (len df <= data_start_row -> rows (extract_actual_data df data_start_row) = [])
  /\ (ncols df = 0 -> rows (extract_actual_data df data_start_row) = [])
  /\ length (rows (extract_actual_data df data_start_row)) <= len df - data_start_row.
Proof.
  rewrite extract_actual_data_rows. repeat split.
  - intros Hlen. by rewrite drop_ge.
  - intros ->. cbn. induction (drop data_start_row (rows df)); [done | by cbn].
  - etransitivity; [apply filter_length_le|]. by rewrite length_drop.
Qed.

Lemma extraction_edges_witness :
  rows (extract_actual_data {| ncols := 1; rows := [[Value "Company"]; [Value "ACME"]] |} 2)
  = [].
Proof.
  apply (proj1 (extraction_edges
                  {| ncols := 1; rows := [[Value "Company"]; [Value "ACME"]] |} 2)).
  cbn. lia.
Defined.

(** *** Blank normalisation *)

Lemma set_zero_where_lengths test col data :
  map length (set_zero_where test col data) = map length data.
Proof.
  unfold set_zero_where. rewrite map_map. apply map_ext. intros row.
  destruct (row !! col) as [v|]; [|done]. destruct (test v); [|done].
  apply length_insert.
Qed.

Lemma fold_set_zero_lengths (f : string -> string -> bool) lits col data :
  map length (foldl (fun data lit => set_zero_where (fun v => f v lit) col data) data lits)
  = map length data.
Proof.
  revert data. induction lits as [|lit lits IH]; intros data; cbn [foldl]; [done|].
  by rewrite IH, set_zero_where_lengths.
Qed.

Lemma clean_column_lengths data col :
  map length (clean_column data col) = map length data.
Proof.
  unfold clean_column.
  by rewrite fold_set_zero_lengths, !set_zero_where_lengths, fold_set_zero_lengths.
Qed.

Lemma clean_columns_lengths data cols :
  map length (foldl clean_column data cols) = map length data.
Proof.
  revert data. induction cols as [|col cols IH]; intros data; cbn [foldl]; [done|].
  by rewrite IH, clean_column_lengths.
Qed.

(** X15: the cleaning keeps the shape of the frame: as many columns,
    as many rows, and in each row as many cells. *)
Theorem cleaning_keeps_shape (df : DataFrame) :
  t_ncols (ultra_careful_cleaning df) = ncols df
  /\ length (t_rows (ultra_careful_cleaning df)) = len df
  /\ map length (t_rows (ultra_careful_cleaning df)) = map length (rows df).
Proof.
  assert (map length (t_rows (ultra_careful_cleaning df)) = map length (rows df)) as H.
  { unfold ultra_careful_cleaning. cbn [t_rows t_ncols astype_str].
    rewrite clean_columns_lengths, map_map. apply map_ext. intros row. apply length_map. }
  split; [done|]. split; [|done].
  apply (f_equal length) in H. by rewrite !length_map in H.
Qed.

Lemma blank_like_clean_text (v : string) : blank_like (clean_text v) = false.
Proof.
  rewrite clean_text_spec. by destruct (blank_like v) eqn:Hb.
Qed.

Lemma clean_text_idem (v : string) : clean_text (clean_text v) = clean_text v.
Proof.
  rewrite (clean_text_spec (clean_text v)). by rewrite blank_like_clean_text.
Qed.

Lemma cell_at_cleaned (df : DataFrame) (r c : nat) :
  cell_at (t_rows (ultra_careful_cleaning df)) r c
  = (fun v => if decide (c < ncols df) then clean_text v else v)
      <$> cell_at (map (map str) (rows df)) r c.
Proof.
  unfold ultra_careful_cleaning. cbn [t_rows t_ncols astype_str].
  by rewrite range_0, cell_at_clean_columns.
Qed.

(** X16: after the cleaning no cell of a column of the frame is
    blank-like: none is empty, whitespace-only, a NaN rendering or a
    spreadsheet error code. *)
Theorem cleaning_leaves_no_blank (df : DataFrame) (r c : nat) (stored : string) :
  c < ncols df ->
  cell_at (t_rows (ultra_careful_cleaning df)) r c = Some stored ->
  blank_like stored = false.
Proof.
  intros Hc. rewrite cell_at_cleaned.
  destruct (cell_at (map (map str) (rows df)) r c) as [v|]; [|done].
  cbn [fmap option_fmap option_map]. rewrite decide_True by done.
  intros [= <-]. apply blank_like_clean_text.
Qed.

Lemma cleaning_leaves_no_blank_witness :
  blank_like "0" = false.
Proof.
  apply (cleaning_leaves_no_blank {| ncols := 1; rows := [[Value "#REF!"]] |} 0 0 "0");
    [cbn; lia | reflexivity].
Defined.

(** Two frames of the same shape with the same cells are the same. *)
Lemma rows_ext (A B : list (list string)) :
  map length A = map length B ->
  (forall r c, cell_at A r c = cell_at B r c) ->
  A = B.
Proof.
  intros Hshape Hcells. apply list_eq. intros r.
  pose proof (f_equal (fun l => l !! r) Hshape) as Hr. cbn in Hr.
  rewrite !list_lookup_fmap in Hr.
  destruct (A !! r) as [a|] eqn:Ha, (B !! r) as [b|] eqn:Hb; try done.
  f_equal. apply list_eq. intros c.
  specialize (Hcells r c). unfold cell_at in Hcells. by rewrite Ha, Hb in Hcells.
Qed.

Lemma map_str_Value (data : list (list string)) :
  map (map str) (map (map Value) data) = data.
Proof.
  rewrite map_map. rewrite <- (map_id data) at 2. apply map_ext. intros row.
  rewrite map_map. rewrite <- (map_id row) at 2. by apply map_ext.
Qed.

(** X17: cleaning a cleaned frame changes nothing. *)
Theorem cleaning_is_idempotent (df : DataFrame) :
  ultra_careful_cleaning (as_values (ultra_careful_cleaning df))
  = ultra_careful_cleaning df.
Proof.
  set (once := ultra_careful_cleaning df).
  assert (t_rows (ultra_careful_cleaning (as_values once)) = t_rows once) as Hrows.
  { apply rows_ext.
    - unfold ultra_careful_cleaning at 1. cbn [t_rows t_ncols astype_str as_values rows ncols].
      by rewrite clean_columns_lengths, map_str_Value.
    - intros r c. rewrite cell_at_cleaned. cbn [as_values rows ncols].
      rewrite map_str_Value. subst once. rewrite cell_at_cleaned.
      destruct (cell_at (map (map str) (rows df)) r c) as [v|]; [|done].
      cbn [fmap option_fmap option_map t_ncols ultra_careful_cleaning astype_str].
      case_decide; [|done]. by rewrite clean_text_idem. }
  destruct (ultra_careful_cleaning (as_values once)) as [n2 r2] eqn:E2.
  destruct once as [n1 r1] eqn:E1. cbn in Hrows. subst r2. f_equal.
  apply (f_equal t_ncols) in E2. cbn in E2. by subst.
Qed.

(** *** Characters of the names *)

Lemma general_cleaning_steps (i : nat) (header_str : string) :
  general_cleaning i header_str = tidied i (replaced header_str).
Proof. reflexivity. Qed.

Lemma absent_app (c : ascii) (a b : string) :
  absent c (a +:+ b) = absent c a && absent c b.
Proof. induction a as [|x a IH]; cbn; [done|]. by rewrite IH, andb_assoc. Qed.

Lemma absent_replace_same (c : ascii) (new s : string) :
  absent c new = true -> absent c (replace c new s) = true.
Proof.
  intros Hnew. induction s as [|x s IH]; cbn [replace]; [done|].
  case_decide as Hx.
  - by rewrite absent_app, Hnew, IH.
  - cbn [absent]. rewrite IH, andb_true_r.
    by apply negb_true_iff, Ascii.eqb_neq.
Qed.

Lemma absent_replace_other (c old : ascii) (new s : string) :
  absent c s = true -> absent c new = true -> absent c (replace old new s) = true.
Proof.
  intros Hs Hnew. induction s as [|x s IH]; cbn [replace]; [done|].
  cbn [absent] in Hs. apply andb_true_iff in Hs as [Hx Hs].
  case_decide.
  - by rewrite absent_app, Hnew, IH.
  - cbn [absent]. by rewrite Hx, IH.
Qed.

Lemma absent_join (c : ascii) (sep : string) (parts : list string) :
  Forall (fun p => absent c p = true) parts -> absent c sep = true ->
  absent c (join sep parts) = true.
Proof.
  intros Hparts Hsep. induction Hparts as [|p ps Hp Hps IH]; [done|].
  cbn [join]. destruct ps as [|p' ps]; [done|].
  by rewrite !absent_app, Hp, Hsep, IH.
Qed.

Lemma absent_split_on (c sep : ascii) (s : string) :
  absent c s = true -> Forall (fun p => absent c p = true) (split_on sep s).
Proof.
  induction s as [|x s IH]; intros Hs; cbn [split_on]; [by repeat constructor|].
  cbn [absent] in Hs. apply andb_true_iff in Hs as [Hx Hs]. specialize (IH Hs).
  case_decide; [by constructor|].
  destruct (split_on sep s) as [|w ws].
  - constructor; [|constructor]. cbn [absent]. by rewrite Hx.
  - apply Forall_cons in IH as [Hw Hws]. constructor; [|done]. cbn [absent]. by rewrite Hx, Hw.
Qed.

Lemma Forall_List_filter {A} (P : A -> Prop) (f : A -> bool) (l : list A) :
  Forall P l -> Forall P (List.filter f l).
Proof.
  induction 1 as [|x l Hx Hl IH]; cbn; [done|]. destruct (f x); [by constructor | done].
Qed.

Lemma absent_take (c : ascii) (n : nat) (s : string) :
  absent c s = true -> absent c (take n s) = true.
Proof.
  revert s. induction n as [|n IH]; intros [|x s] Hs; cbn [take absent]; try done.
  cbn [absent] in Hs. apply andb_true_iff in Hs as [-> Hs]. by rewrite IH.
Qed.

Lemma absent_lower (c : ascii) (s : string) :
  (forall x, lower_char x = c -> x = c) ->
  absent c s = true -> absent c (lower s) = true.
Proof.
  intros Hkeep. induction s as [|x s IH]; intros Hs; cbn [lower absent]; [done|].
  cbn [absent] in Hs. apply andb_true_iff in Hs as [Hx Hs]. rewrite IH by done.
  rewrite andb_true_r. apply negb_true_iff, Ascii.eqb_neq.
  apply negb_true_iff, Ascii.eqb_neq in Hx. intros Heq. by apply Hx, Hkeep.
Qed.

Lemma split_ws_aux_absent (c : ascii) (s : string) :
  is_space c = true ->
  forall cur, absent c cur = true ->
    Forall (fun w => absent c w = true) (split_ws_aux cur s).
Proof.
  intros Hc. induction s as [|x s IH]; intros cur Hcur; cbn [split_ws_aux].
  - case_decide; by repeat constructor.
  - destruct (is_space x) eqn:Hx.
    + case_decide; [by apply IH|]. constructor; [done | by apply IH].
    + apply IH. rewrite absent_app, Hcur. cbn [absent andb].
      rewrite andb_true_r. apply negb_true_iff, Ascii.eqb_neq. congruence.
Qed.

(** The normalised header text has no whitespace but single spaces. *)
Lemma normalize_header_absent (c : ascii) (header : cell) :
  is_space c = true -> absent c " " = true ->
  absent c (normalize_header header) = true.
Proof.
  intros Hc Hsp. unfold normalize_header, split_ws. cbv zeta.
  apply absent_join; [|done]. by apply split_ws_aux_absent.
Qed.

(** Any value of [x]. *)
Lemma all_ascii (x : ascii) : In x (map ascii_of_nat (seq 0 256)).
Proof.
  apply in_map_iff. exists (nat_of_ascii x). split; [apply ascii_nat_embedding|].
  apply in_seq. pose proof (nat_ascii_bounded x). lia.
Qed.

Lemma lower_keeps_unwanted (c x : ascii) :
  In c unwanted_chars -> lower_char x = c -> x = c.
Proof.
  assert (forallb (fun x => forallb (fun c => implb (Ascii.eqb (lower_char x) c) (Ascii.eqb x c))
                              unwanted_chars)
                  (map ascii_of_nat (seq 0 256)) = true) as Hall by (by vm_compute).
  intros Hc Hx. rewrite forallb_forall in Hall. specialize (Hall x (all_ascii x)).
  rewrite forallb_forall in Hall. specialize (Hall c Hc).
  apply Ascii.eqb_eq in Hx. rewrite Hx in Hall. by apply Ascii.eqb_eq.
Qed.

Lemma plain_spec (name : string) :
  plain name = true <-> forall c, In c unwanted_chars -> absent c name = true.
Proof. unfold plain. apply forallb_forall. Qed.

(** A literal of the naming rules has no unwanted character. *)
Ltac plain_literal c Hc :=
  match goal with
  | |- absent c ?lit = true =>
      exact (proj1 (plain_spec lit) eq_refl c Hc)
  end.

Lemma str_nat_plain (i : nat) (c : ascii) :
  In c unwanted_chars -> absent c (str_nat i) = true.
Proof.
  intros Hc. apply str_nat_digits. intros d Hd ->.
  assert (forallb (fun d => negb (existsb (Ascii.eqb d) unwanted_chars))
                  ["0"; "1"; "2"; "3"; "4"; "5"; "6"; "7"; "8"; "9"]%char = true) as Hall
    by reflexivity.
  rewrite forallb_forall in Hall. specialize (Hall c Hd).
  apply negb_true_iff in Hall. apply not_true_iff_false in Hall. apply Hall.
  apply existsb_exists. exists c. split; [done | apply Ascii.eqb_refl].
Qed.

(** The replacements leave no unwanted character of the normalised
    header: each is replaced or removed, or was not there. *)
Lemma replaced_plain (header : cell) :
  plain (replaced (normalize_header header)) = true.
Proof.
  unfold plain, unwanted_chars, replaced. cbn [forallb].
  repeat (apply andb_true_intro; split); try reflexivity;
    repeat first [ apply absent_replace_same; reflexivity
                 | apply absent_replace_other; [|reflexivity] ];
    by apply normalize_header_absent.
Qed.

Lemma tidied_plain (i : nat) (s : string) :
  plain s = true -> plain (tidied i s) = true.
Proof.
  rewrite !plain_spec. intros Hs c Hc. specialize (Hs c Hc).
  unfold tidied. cbv zeta.
  set (joined := Py.join "_" _).
  assert (absent c joined = true) as Hj.
  { apply absent_join; [by apply Forall_List_filter, absent_split_on|].
    plain_literal c Hc. }
  set (capped := if 60 <? String.length joined then take 60 joined else joined).
  assert (absent c capped = true) as Hcap.
  { subst capped. destruct (60 <? String.length joined); [by apply absent_take | done]. }
  destruct (negb (non_empty capped) || String.eqb capped "_"); [|done].
  rewrite absent_app, str_nat_plain, andb_true_r by done. plain_literal c Hc.
Qed.

Lemma clean_name_of_plain (used : gset string) (i : nat) (header : cell) :
  plain (clean_name_of used i header) = true.
Proof.
  apply plain_spec. intros c Hc. unfold clean_name_of. cbv zeta.
  repeat (match goal with
          | |- context [if ?b then _ else _] =>
              lazymatch b with
              | context [if _ then _ else _] => fail
              | _ => destruct b
              end
          end);
    try (rewrite general_cleaning_steps;
         apply (proj1 (plain_spec _) (tidied_plain i _ (replaced_plain header)) c Hc));
    rewrite ?absent_app, ?str_nat_plain, ?andb_true_r by done;
    plain_literal c Hc.
Qed.

Lemma lower_clean_name_of (used : gset string) (i : nat) (header : cell) :
  plain (lower (clean_name_of used i header)) = true.
Proof.
  apply plain_spec. intros c Hc. apply absent_lower.
  - intros x. by apply lower_keeps_unwanted.
  - by apply (proj1 (plain_spec _) (clean_name_of_plain used i header)).
Qed.

(** The name one header gets is plain and in lower case. *)
Lemma final_name_of_plain (used : gset string) (i : nat) (header : cell) (name : string) :
  final_name_of used i header = Ok name ->
  plain name = true /\ lower name = name.
Proof.
  intros Hrun.
  destruct (final_name_of_spec used i header) as (name' & Hrun' & _ & _ & Hshape).
  rewrite Hrun in Hrun'. injection Hrun' as <-.
  pose proof (lower_clean_name_of used i header) as Hplain.
  destruct Hshape as [-> | (k & _ & ->)].
  - split; [done | apply ShellFacts.lower_idem].
  - unfold suffixed. split.
    + apply plain_spec. intros c Hc.
      rewrite !absent_app, str_nat_plain, andb_true_r by done.
      rewrite (proj1 (plain_spec _) Hplain c Hc). cbn [andb]. plain_literal c Hc.
    + by rewrite !lower_app, ShellFacts.lower_idem, lower_str_nat.
Qed.

Lemma headers_loop_forall (P : string -> Prop) :
  (forall used i header name, final_name_of used i header = Ok name -> P name) ->
  forall headers i used cleaned names,
    headers_loop i headers used cleaned = Ok names ->
    Forall P cleaned -> Forall P names.
Proof.
  intros Hstep. induction headers as [|header headers IH];
    intros i used cleaned names; cbn [headers_loop].
  - by intros [= <-].
  - destruct (final_name_of used i header) as [name| |] eqn:Hname; cbn [mbind result_bind];
      [|done..].
    intros Hloop Hcleaned. eapply IH; [exact Hloop|].
    apply Forall_app. split; [done|]. constructor; [by eapply Hstep | constructor].
Qed.

(** X18: no column name has whitespace, a slash, a hyphen, a bracket,
    a quote, a question or exclamation mark or an ampersand, and every
    column name is in lower case. *)
Theorem names_are_plain (headers : list cell) (names : list string) :
  careful_headers headers = Ok names ->
  Forall (fun name => plain name = true /\ lower name = name) names.
Proof.
  intros Hrun. destruct (careful_headers_is_loop headers) as (names' & Hloop & Hrun' & _).
  rewrite Hrun in Hrun'. injection Hrun' as <-.
  eapply headers_loop_forall; [|exact Hloop | constructor].
  intros used i header name. apply final_name_of_plain.
Qed.

Lemma names_are_plain_witness :
  Forall (fun name => plain name = true /\ lower name = name)
         ["cost_center"; "randd_share_net"; "whats_new"].
Proof.
  apply (names_are_plain [Value "Cost Center (EUR)"; Value "R&D share [net]";
                          Value "What's new?"]).
  reflexivity.
Defined.

(** *** The run *)

Lemma row_at_rectangular (df : DataFrame) (h : nat) :
  rectangular df -> h < len df -> length (row_at df h) = ncols df.
Proof.
  unfold rectangular, row_at, len. intros Hrect Hh.
  destruct (lookup_lt_is_Some_2 (rows df) h Hh) as [row Hrow]. rewrite Hrow. cbn.
  rewrite Forall_forall in Hrect. apply Hrect. by eapply list_elem_of_lookup_2.
Qed.

Lemma extracted_rectangular (df : DataFrame) (d : nat) :
  rectangular df -> rectangular (extract_actual_data df d).
Proof.
  unfold rectangular. rewrite extract_actual_data_rows. cbn [ncols extract_actual_data].
  intros Hrect. apply Forall_List_filter. by apply Forall_drop.
Qed.

(** The records the cleaning gives for a rectangular frame: full rows
    without a blank-like text. *)
Lemma cleaned_records (df : DataFrame) :
  rectangular df ->
  Forall (fun record => length record = ncols df) (t_rows (ultra_careful_cleaning df))
  /\ Forall (Forall (fun t => blank_like t = false)) (t_rows (ultra_careful_cleaning df)).
Proof.
  intros Hrect.
  assert (map length (t_rows (ultra_careful_cleaning df)) = map length (rows df)) as Hshape.
  { unfold ultra_careful_cleaning. cbn [t_rows t_ncols astype_str].
    rewrite clean_columns_lengths, map_map. apply map_ext. intros row. apply length_map. }
  assert (Forall (fun record => length record = ncols df)
                 (t_rows (ultra_careful_cleaning df))) as Hlen.
  { apply Forall_lookup. intros r record Hr.
    pose proof (f_equal (fun l => l !! r) Hshape) as Hl. cbv beta in Hl.
    rewrite !list_lookup_fmap, Hr in Hl.
    destruct (rows df !! r) as [row|] eqn:Hrow; [|done].
    cbn [fmap option_fmap option_map] in Hl. injection Hl as ->. unfold rectangular in Hrect. rewrite Forall_forall in Hrect.
    apply Hrect. by eapply list_elem_of_lookup_2. }
  split; [done|].
  apply Forall_lookup. intros r record Hr. apply Forall_lookup. intros c t Hc.
  assert (c < ncols df) as Hlt.
  { rewrite Forall_lookup in Hlen. rewrite <- (Hlen r record Hr). by eapply lookup_lt_Some. }
  assert (cell_at (t_rows (ultra_careful_cleaning df)) r c = Some t) as Hcell.
  { unfold cell_at. rewrite Hr. done. }
  rewrite cell_at_cleaned in Hcell.
  destruct (cell_at (map (map str) (rows df)) r c) as [v|]; [|done].
  cbn [fmap option_fmap option_map] in Hcell. rewrite decide_True in Hcell by done.
  injection Hcell as <-. apply blank_like_clean_text.
Qed.

(** X19: on a rectangular sheet with columns, steps 3 to 6 of [main]
    end in one of two ways, and the sheet decides which. If no row
    qualifies as header, none is dense, and the sheet has at most 8 rows,
    reading the fallback header row 8 raises an IndexError that [main] does
    not catch. Otherwise the database step is handed one distinct name per
    column and records that all have one text per column, none blank-like,
    and that are no more than the rows of the sheet. One of the two cases
    holds. *)
Theorem main_steps_outcome (df : DataFrame) :
  rectangular df -> 0 < ncols df ->
  let no_header_row :=
    len df <= 8 /\ (forall i, ~ qualifies df i) /\ (forall i, ~ dense df i) in
  (no_header_row -> main_steps df = Escaped IndexError)
  /\ (~ no_header_row ->
      exists headers records,
        main_steps df = Handed headers records
        /\ length headers = ncols df /\ NoDup headers
        /\ Forall (fun record => length record = ncols df) records
        /\ Forall (Forall (fun t => blank_like t = false)) records
        /\ length records <= len df)
  /\ (no_header_row \/ ~ no_header_row).
Proof.
  intros Hrect Hcols no_header_row.
  destruct (find_data_boundaries_spec df (or_introl Hcols)) as (h & d & Hrun & Hh & _).
  unfold main_steps. rewrite Hrun, create_careful_headers_row.
  destruct (decide (h < len df)) as [Hin|Hout].
  - assert (~ no_header_row) as Hno.
    { intros (Hlen & Hnq & Hnd).
      destruct Hh as [[Hq _] | [(_ & Hd & _) | (_ & _ & ->)]];
        [by apply (Hnq h) | by apply (Hnd h) | lia]. }
    split; [done|]. split; [|by right]. intros _.
    pose proof (row_at_rectangular df h Hrect Hin) as Hrow.
    unfold row_at, len in Hrow, Hin.
    destruct (lookup_lt_is_Some_2 (rows df) h Hin) as [row Hlook].
    rewrite Hlook in Hrow |- *. cbn in Hrow.
    destruct (careful_headers_is_loop row) as (names & _ & -> & Hlen & Hnd).
    cbn [ncols extract_actual_data]. rewrite decide_True by congruence.
    exists names, (t_rows (ultra_careful_cleaning (extract_actual_data df d))).
    split; [done|]. split; [congruence|]. split; [done|].
    destruct (cleaned_records _ (extracted_rectangular df d Hrect)) as [Hfull Hnb].
    split; [done|]. split; [done|].
    assert (length (t_rows (ultra_careful_cleaning (extract_actual_data df d)))
            = length (rows (extract_actual_data df d))) as ->.
    { unfold ultra_careful_cleaning. cbn [t_rows t_ncols astype_str].
      rewrite <- (length_map length), clean_columns_lengths. by rewrite !length_map. }
    rewrite extract_actual_data_rows.
    etransitivity; [apply filter_length_le|]. rewrite length_drop. unfold len. lia.
  - assert (no_header_row) as Hyes.
    { destruct Hh as [[[Hq _] _] | [(_ & [Hd _] & _) | (Hnq & Hnd & ->)]]; [lia | lia |].
      split; [lia | done]. }
    split; [|split; [done | by left]]. intros _.
    assert (rows df !! h = None) as -> by (apply lookup_ge_None; unfold len in Hout; lia).
    done.
Qed.

Lemma main_steps_outcome_witness :
  main_steps {| ncols := 1; rows := [ [NaN]; [Value "  "] ] |} = Escaped IndexError
  /\ exists headers records,
       main_steps {| ncols := 2;
                     rows := [ [Value "Company"; Value "Region / Plant / Budget"];
                               [Value "ACME"; NaN];
                               [NaN; Value " "] ] |}
       = Handed headers records
       /\ length headers = 2 /\ NoDup headers.
Proof.
  split.
  - apply (proj1 (main_steps_outcome {| ncols := 1; rows := [ [NaN]; [Value "  "] ] |}
                    ltac:(by repeat constructor) ltac:(cbn; lia))).
    split; [cbn; lia|]. split.
    + intros i [Hi Hs]. cbn in Hi.
      destruct i as [|[|i]]; [vm_compute in Hs; lia | vm_compute in Hs; lia | lia].
    + intros i [Hi Hs]. cbn in Hi.
      destruct i as [|[|i]]; [vm_compute in Hs; done | vm_compute in Hs; done | lia].
  - destruct (proj1 (proj2 (main_steps_outcome
               {| ncols := 2;
                  rows := [ [Value "Company"; Value "Region / Plant / Budget"];
                            [Value "ACME"; NaN];
                            [NaN; Value " "] ] |}
               ltac:(by repeat constructor) ltac:(cbn; lia))))
      as (headers & records & Hrun & Hlen & Hnd & _).
    + intros (_ & Hnq & _). apply (Hnq 0). split; [cbn; lia | vm_compute; lia].
    + exists headers, records. auto.
Defined.

End PipelineFacts.
